(** * invoiceComply: the two French test-invoice generators

    A shallow embedding of [generate_clean_invoice.py] (ReportLab) and
    [generate_french_invoice.py] (FPDF).

    - Python [float] is IEEE 754 binary64, modelled by [spec_float] with
      the operations of [SpecFloat] at precision 53.
    - Python [str] is a [string] holding the UTF-8 bytes of the source
      literal.
    - [datetime.now()], the file system, standard output and the two PDF
      libraries are the outside world: a [world] record threaded through a
      state-and-exception monad, the libraries' byte encoders being two
      of its fields.
    - Layout is not reproduced: a document is the sequence of objects
      or calls the script hands to its library, and its text is the
      strings they carry. *)

From Stdlib Require Import ZArith List String Ascii Bool Lia.
From Stdlib Require Import DecimalString DecimalN.
From Stdlib Require Import Floats.SpecFloat.
Import ListNotations.

Local Open Scope Z_scope.
Local Open Scope string_scope.

(* ================================================================== *)
(** * Python values used by the scripts *)

(** ** Exceptions and results *)

Inductive exn : Type :=
| OverflowError (msg : string)
| PermissionError (path : string)
| FileNotFoundError (path : string)
| LibraryError (msg : string).

Inductive result (A : Type) : Type :=
| Ok (a : A)
| Raise (e : exn).

Arguments Ok {A} a.
Arguments Raise {A} e.

(** ** Decimal text of integers: [str(n)] and zero-padded fields *)

Definition str_of_N (n : N) : string :=
  NilZero.string_of_uint (N.to_uint n).

Definition str_of_Z (z : Z) : string :=
  match z with
  | Zneg p => "-" ++ str_of_N (Npos p)
  | _ => str_of_N (Z.to_N z)
  end.

Fixpoint zfill_aux (pad : nat) (s : string) : string :=
  match pad with
  | O => s
  | S k => String "0" (zfill_aux k s)
  end.

(** [zfill w s]: left-pad [s] with zeros up to width [w]. *)
Definition zfill (w : nat) (s : string) : string :=
  zfill_aux (w - String.length s) s.

(** ** Floats *)

Module PyFloat.

Definition prec : Z := 53.
Definition emax : Z := 1024.

Definition t := spec_float.

(** [float(n)] for an integer [n] (round to nearest even). *)
Definition of_int (n : Z) : t := binary_normalize prec emax n 0 false.

Definition add : t -> t -> t := SFadd prec emax.
Definition mul : t -> t -> t := SFmul prec emax.
Definition div : t -> t -> t := SFdiv prec emax.

(** The float denoted by a decimal literal with [scale] digits after
    the point, [digits] being the literal read without its point:
    [1000.00] is [literal 100000 2], [0.20] is [literal 20 2].  The
    quotient of two exactly represented integers is rounded once, to
    the float nearest to the decimal value, as the Python parser
    does. *)
Definition literal (digits : Z) (scale : nat) : t :=
  div (of_int digits) (of_int (10 ^ Z.of_nat scale)).

(** [round_half_even num den]: the integer nearest to [num/den], ties
    to even ([0 <= num], [0 < den]). *)
Definition round_half_even (num den : Z) : Z :=
  let q := num / den in
  let r := num mod den in
  match 2 * r ?= den with
  | Lt => q
  | Gt => q + 1
  | Eq => if Z.even q then q else q + 1
  end.

(** Hundredths of the absolute value, correctly rounded: the digits
    that [format(x, '.2f')] prints. *)
Definition hundredths (m : positive) (e : Z) : Z :=
  match e with
  | Zneg p => round_half_even (Zpos m * 100) (2 ^ Zpos p)
  | _ => Zpos m * 100 * 2 ^ e
  end.

Definition fixed2 (h : Z) : string :=
  str_of_Z (h / 100) ++ "." ++ zfill 2 (str_of_Z (h mod 100)).

Definition sign_text (s : bool) : string := if s then "-" else "".

(** [f'{x:.2f}'] *)
Definition format_2f (x : t) : string :=
  match x with
  | S754_nan => "nan"
  | S754_infinity s => sign_text s ++ "inf"
  | S754_zero s => sign_text s ++ "0.00"
  | S754_finite s m e => sign_text s ++ fixed2 (hundredths m e)
  end.

(** The exact value of a float in hundredths, when it is a whole
    number of hundredths. *)
Definition exact_cents (x : t) : option Z :=
  match x with
  | S754_zero _ => Some 0
  | S754_finite s m (Zneg p) =>
      if Z.eqb ((Zpos m * 100) mod 2 ^ Zpos p) 0
      then Some (cond_Zopp s (Zpos m * 100 / 2 ^ Zpos p))
      else None
  | S754_finite s m e => Some (cond_Zopp s (Zpos m * 100 * 2 ^ e))
  | _ => None
  end.

End PyFloat.

(** ** Numbers: [int] or [float], with Python's mixed arithmetic *)

Inductive num : Type :=
| Int (z : Z)
| Float (f : PyFloat.t).

Definition to_float (x : num) : PyFloat.t :=
  match x with
  | Int z => PyFloat.of_int z
  | Float f => f
  end.

Definition num_add (x y : num) : num :=
  match x, y with
  | Int a, Int b => Int (a + b)
  | _, _ => Float (PyFloat.add (to_float x) (to_float y))
  end.

Definition num_mul (x y : num) : num :=
  match x, y with
  | Int a, Int b => Int (a * b)
  | _, _ => Float (PyFloat.mul (to_float x) (to_float y))
  end.

(** [f'{x:.2f}'] on a number: an [int] is converted first. *)
Definition fmt2 (x : num) : string := PyFloat.format_2f (to_float x).

(** ** Text search *)

(** [needle in hay] *)
Fixpoint contains (needle hay : string) : bool :=
  prefix needle hay ||
  match hay with
  | EmptyString => false
  | String _ rest => contains needle rest
  end.

Definition newline : string := String (ascii_of_nat 10) EmptyString.

(** [s.split('\n')]: the lines of a text. *)
Fixpoint split_lines_aux (cur : string) (s : string) : list string :=
  match s with
  | EmptyString => [cur]
  | String c rest =>
      if Ascii.eqb c (ascii_of_nat 10)
      then cur :: split_lines_aux "" rest
      else split_lines_aux (cur ++ String c "") rest
  end.

Definition split_lines (s : string) : list string := split_lines_aux "" s.

(* ================================================================== *)
(** * [datetime]: the part of the standard module the scripts call

    [datetime.now()], [datetime + timedelta(days=30)] and
    [strftime('%d/%m/%Y')], after CPython's [Lib/_pydatetime.py]. *)

Module PyDatetime.

Definition MINYEAR : Z := 1.
Definition MAXYEAR : Z := 9999.
Definition MAXORDINAL : Z := 3652059.

Record datetime : Type := mk_datetime {
  year : Z; month : Z; day : Z;
  hour : Z; minute : Z; second : Z; microsecond : Z
}.

Record timedelta : Type := mk_timedelta {
  days : Z; seconds : Z; microseconds : Z
}.

(** [timedelta(days=n)] *)
Definition timedelta_days (n : Z) : timedelta := mk_timedelta n 0 0.

Definition is_leap (y : Z) : bool :=
  Z.eqb (y mod 4) 0 && (negb (Z.eqb (y mod 100) 0) || Z.eqb (y mod 400) 0).

Definition DAYS_IN_MONTH : list Z :=
  [-1; 31; 28; 31; 30; 31; 30; 31; 31; 30; 31; 30; 31].

Definition DAYS_BEFORE_MONTH : list Z :=
  [-1; 0; 31; 59; 90; 120; 151; 181; 212; 243; 273; 304; 334].

Definition tbl (t : list Z) (i : Z) : Z := nth (Z.to_nat i) t 0.

Definition b2z (b : bool) : Z := if b then 1 else 0.

Definition days_before_year (y : Z) : Z :=
  let y := y - 1 in y * 365 + y / 4 - y / 100 + y / 400.

Definition days_in_month (y m : Z) : Z :=
  if Z.eqb m 2 && is_leap y then 29 else tbl DAYS_IN_MONTH m.

Definition days_before_month (y m : Z) : Z :=
  tbl DAYS_BEFORE_MONTH m + b2z (Z.ltb 2 m && is_leap y).

Definition ymd2ord (y m d : Z) : Z :=
  days_before_year y + days_before_month y m + d.

Definition DI400Y : Z := 146097.
Definition DI100Y : Z := 36524.
Definition DI4Y : Z := 1461.

Definition ord2ymd (n : Z) : Z * Z * Z :=
  let n := n - 1 in
  let n400 := n / DI400Y in
  let n := n mod DI400Y in
  let y := n400 * 400 + 1 in
  let n100 := n / DI100Y in
  let n := n mod DI100Y in
  let n4 := n / DI4Y in
  let n := n mod DI4Y in
  let n1 := n / 365 in
  let n := n mod 365 in
  let y := y + n100 * 100 + n4 * 4 + n1 in
  if Z.eqb n1 4 || Z.eqb n100 4 then (y - 1, 12, 31)
  else
    let leapyear := Z.eqb n1 3 && (negb (Z.eqb n4 24) || Z.eqb n100 3) in
    let m := Z.shiftr (n + 50) 5 in
    let preceding := tbl DAYS_BEFORE_MONTH m + b2z (Z.ltb 2 m && leapyear) in
    if Z.ltb n preceding
    then
      let m := m - 1 in
      let preceding :=
        preceding - (tbl DAYS_IN_MONTH m + b2z (Z.eqb m 2 && leapyear)) in
      (y, m, n - preceding + 1)
    else (y, m, n - preceding + 1).

(** [dt.toordinal()] *)
Definition toordinal (dt : datetime) : Z :=
  ymd2ord (year dt) (month dt) (day dt).

(** The values a [datetime] object can hold. *)
Definition valid (dt : datetime) : bool :=
  Z.leb MINYEAR (year dt) && Z.leb (year dt) MAXYEAR &&
  Z.leb 1 (month dt) && Z.leb (month dt) 12 &&
  Z.leb 1 (day dt) && Z.leb (day dt) (days_in_month (year dt) (month dt)) &&
  Z.leb 0 (hour dt) && Z.ltb (hour dt) 24 &&
  Z.leb 0 (minute dt) && Z.ltb (minute dt) 60 &&
  Z.leb 0 (second dt) && Z.ltb (second dt) 60 &&
  Z.leb 0 (microsecond dt) && Z.ltb (microsecond dt) 1000000.

(** [dt + td]: the ordinal and the time of day are summed as one
    duration, carried, and turned back into a date and a time; a date
    outside [1 .. MAXORDINAL] raises. *)
Definition add (dt : datetime) (td : timedelta) : result datetime :=
  let us := microsecond dt + microseconds td in
  let s := hour dt * 3600 + minute dt * 60 + second dt + seconds td
           + us / 1000000 in
  let us := us mod 1000000 in
  let d := toordinal dt + days td + s / 86400 in
  let s := s mod 86400 in
  if Z.ltb 0 d && Z.leb d MAXORDINAL
  then
    let '(y, m, dd) := ord2ymd d in
    Ok (mk_datetime y m dd (s / 3600) ((s mod 3600) / 60) (s mod 60) us)
  else Raise (OverflowError "date value out of range").

(** [dt.strftime('%d/%m/%Y')], the year written on four digits.  (Some
    C libraries write a year below 1000 without padding; what is proved
    about the text of a date is proved for years from 1000 on.) *)
Definition strftime_dmY (dt : datetime) : string :=
  zfill 2 (str_of_Z (day dt)) ++ "/" ++ zfill 2 (str_of_Z (month dt))
  ++ "/" ++ zfill 4 (str_of_Z (year dt)).

(** Two readings fall on the same calendar day. *)
Definition same_day (a b : datetime) : bool :=
  Z.eqb (year a) (year b) && Z.eqb (month a) (month b)
  && Z.eqb (day a) (day b).

End PyDatetime.

Import PyDatetime.

(* ================================================================== *)
(** * Documents handed to the two PDF libraries *)

(** ** ReportLab (platypus) *)

Module ReportLab.

Record ParagraphStyle : Type := mk_style {
  style_name : string;
  parent : string;
  fontSize : Z;
  spaceAfter : Z;
  alignment : option Z;
  textColor : option string
}.

(** An argument of a [TableStyle] command. *)
Inductive style_arg : Type :=
| AColor (name : string)
| AStr (s : string)
| AInt (n : Z).

(** [(cmd, (c0, r0), (c1, r1), args...)] *)
Definition style_cmd : Type := string * (Z * Z) * (Z * Z) * list style_arg.

Inductive flowable : Type :=
| Paragraph (text : string) (style : ParagraphStyle)
| Spacer (width height : Z)
| Table (data : list (list string)) (colWidths : list num)
        (style : list style_cmd).

Record SimpleDocTemplate : Type := mk_doc {
  doc_filename : string;
  pagesize : string
}.

(** [reportlab.lib.units.inch] *)
Definition inch : num := Float (PyFloat.literal 720 1).

(** [table.setStyle(TableStyle(cmds))] *)
Definition setStyle (t : flowable) (cmds : list style_cmd) : flowable :=
  match t with
  | Table data widths _ => Table data widths cmds
  | other => other
  end.

(** Paragraph text is ReportLab's inline markup: the tags are
    interpreted, the text between them is drawn. *)
Fixpoint strip_tags_aux (in_tag : bool) (s : string) : string :=
  match s with
  | EmptyString => EmptyString
  | String c rest =>
      if in_tag
      then strip_tags_aux (negb (Ascii.eqb c ">")) rest
      else if Ascii.eqb c "<" then strip_tags_aux true rest
           else String c (strip_tags_aux false rest)
  end.

Definition strip_tags (s : string) : string := strip_tags_aux false s.

(** The strings of a flowable, as the script wrote them. *)
Definition flowable_strings (f : flowable) : list string :=
  match f with
  | Paragraph text _ => [text]
  | Spacer _ _ => []
  | Table data _ _ => List.concat data
  end.

(** The text runs drawn for a flowable: a paragraph's markup is
    interpreted, a table cell given as a string is drawn as it is. *)
Definition flowable_text (f : flowable) : list string :=
  match f with
  | Paragraph text _ => [strip_tags text]
  | Spacer _ _ => []
  | Table data _ _ => List.concat data
  end.

Definition story_strings (story : list flowable) : list string :=
  flat_map flowable_strings story.

Definition story_text (story : list flowable) : list string :=
  flat_map flowable_text story.

End ReportLab.

(** ** FPDF *)

Module Fpdf.

(** A drawing call received by the document object. *)
Inductive op : Type :=
| SetFont (family style : string) (size : Z)
| SetY (y : Z)
| Cell (w h : Z) (txt : string) (border ln : Z) (align : string)
| Ln (h : Z).

(** The document object: the page counter and the calls made so far,
    oldest first. *)
Record FPDF : Type := mk_fpdf {
  page : Z;
  ops : list op
}.

Definition new : FPDF := mk_fpdf 0 [].

Definition emit (pdf : FPDF) (o : op) : FPDF :=
  mk_fpdf (page pdf) (ops pdf ++ [o]).

Definition set_font (pdf : FPDF) (family style : string) (size : Z) : FPDF :=
  emit pdf (SetFont family style size).

Definition set_y (pdf : FPDF) (y : Z) : FPDF := emit pdf (SetY y).

(** [pdf.cell(w, h, txt, border, ln, align)]; [align] defaults to ['']. *)
Definition cell (pdf : FPDF) (w h : Z) (txt : string) (border ln : Z)
           (align : string) : FPDF :=
  emit pdf (Cell w h txt border ln align).

Definition ln (pdf : FPDF) (h : Z) : FPDF := emit pdf (Ln h).

Definition page_no (pdf : FPDF) : Z := page pdf.

(** The text runs drawn, in order. *)
Definition op_text (o : op) : list string :=
  match o with
  | Cell _ _ txt _ _ _ => [txt]
  | _ => []
  end.

Definition text (pdf : FPDF) : list string := flat_map op_text (ops pdf).

End Fpdf.

(* ================================================================== *)
(** * The outside world and the monad of a run *)

Record world : Type := mk_world {
  (** The successive values of [datetime.now()] and how many were read. *)
  clock : nat -> datetime;
  ticks : nat;
  (** The working directory: which paths may be written, and the files. *)
  writable : string -> bool;
  files : list (string * list Byte.byte);
  (** Standard output. *)
  stdout : string;
  (** The PDF encoders of the two libraries. *)
  reportlab_encode :
    ReportLab.SimpleDocTemplate -> list ReportLab.flowable ->
    result (list Byte.byte);
  fpdf_encode : Fpdf.FPDF -> result (list Byte.byte)
}.

Definition M (A : Type) : Type := world -> result A * world.

Definition ret {A} (a : A) : M A := fun w => (Ok a, w).

Definition raise {A} (e : exn) : M A := fun w => (Raise e, w).

Definition bind {A B} (c : M A) (k : A -> M B) : M B :=
  fun w =>
    match c w with
    | (Ok a, w') => k a w'
    | (Raise e, w') => (Raise e, w')
    end.

Notation "x <- c ;; k" := (bind c (fun x => k))
  (at level 61, c at next level, right associativity).
Notation "c >> k" := (bind c (fun _ => k))
  (at level 61, right associativity).

Definition lift {A} (r : result A) : M A := fun w => (r, w).

(** [datetime.now()] *)
Definition now : M datetime :=
  fun w =>
    (Ok (clock w (ticks w)),
     mk_world (clock w) (S (ticks w)) (writable w) (files w) (stdout w)
              (reportlab_encode w) (fpdf_encode w)).

(** [print(s)], on an output stream that accepts every character. *)
Definition print (s : string) : M unit :=
  fun w =>
    (Ok tt,
     mk_world (clock w) (ticks w) (writable w) (files w)
              (stdout w ++ s ++ newline)
              (reportlab_encode w) (fpdf_encode w)).

Fixpoint lookup_file (path : string) (fs : list (string * list Byte.byte))
  : option (list Byte.byte) :=
  match fs with
  | [] => None
  | (p, content) :: rest =>
      if String.eqb p path then Some content else lookup_file path rest
  end.

Fixpoint store_file (path : string) (content : list Byte.byte)
         (fs : list (string * list Byte.byte)) : list (string * list Byte.byte) :=
  match fs with
  | [] => [(path, content)]
  | (p, c) :: rest =>
      if String.eqb p path then (p, content) :: rest
      else (p, c) :: store_file path content rest
  end.

(** [open(path, 'wb').write(content)], as one step: refused, or done. *)
Definition write_file (path : string) (content : list Byte.byte) : M unit :=
  fun w =>
    if writable w path
    then (Ok tt,
          mk_world (clock w) (ticks w) (writable w)
                   (store_file path content (files w)) (stdout w)
                   (reportlab_encode w) (fpdf_encode w))
    else (Raise (PermissionError path), w).

(** [os.path.getsize(path)] *)
Definition getsize (path : string) : M Z :=
  fun w =>
    match lookup_file path (files w) with
    | Some content => (Ok (Z.of_nat (List.length content)), w)
    | None => (Raise (FileNotFoundError path), w)
    end.

(* ================================================================== *)
(** * generate_clean_invoice.py *)

Module Clean.
Import ReportLab.

Definition filename : string := "facture_clean_invoicecomply.pdf".

Definition title_style : ParagraphStyle :=
  mk_style "CustomTitle" "Heading1" 20 30 (Some 1) None.

Definition header_style : ParagraphStyle :=
  mk_style "CustomHeader" "Heading2" 14 12 None (Some "black").

Definition normal_style : ParagraphStyle :=
  mk_style "CustomNormal" "Normal" 10 6 None None.

Definition legal_style : ParagraphStyle :=
  mk_style "Legal" "Normal" 8 4 None None.

(** [story.append(x)] *)
Definition append (story : list flowable) (x : flowable) : list flowable :=
  story ++ [x].

Definition data : list (list string) :=
  [ ["Description"; "Qté"; "Prix unitaire"; "Total HT"];
    ["Développement site web"; "1"; "1000.00 EUR"; "1000.00 EUR"];
    ["Maintenance mensuelle"; "3"; "150.00 EUR"; "450.00 EUR"];
    ["Formation utilisateurs"; "2"; "200.00 EUR"; "400.00 EUR"] ].

Definition table_style : list style_cmd :=
  [ ("BACKGROUND", (0, 0), (-1, 0), [AColor "grey"]);
    ("TEXTCOLOR", (0, 0), (-1, 0), [AColor "whitesmoke"]);
    ("ALIGN", (0, 0), (-1, -1), [AStr "CENTER"]);
    ("FONTNAME", (0, 0), (-1, 0), [AStr "Helvetica-Bold"]);
    ("FONTSIZE", (0, 0), (-1, 0), [AInt 10]);
    ("BOTTOMPADDING", (0, 0), (-1, 0), [AInt 12]);
    ("BACKGROUND", (0, 1), (-1, -1), [AColor "beige"]);
    ("GRID", (0, 0), (-1, -1), [AInt 1; AColor "black"]);
    ("FONTNAME", (0, 1), (-1, -1), [AStr "Helvetica"]);
    ("FONTSIZE", (0, 1), (-1, -1), [AInt 9]);
    ("ALIGN", (1, 1), (-1, -1), [AStr "RIGHT"]) ].

Definition totals_data : list (list string) :=
  [ ["Sous-total HT:"; "1850.00 EUR"];
    ["TVA (20%):"; "370.00 EUR"];
    ["<b>TOTAL TTC:</b>"; "<b>2220.00 EUR</b>"] ].

Definition totals_style : list style_cmd :=
  [ ("ALIGN", (0, 0), (-1, -1), [AStr "RIGHT"]);
    ("FONTNAME", (0, 0), (-1, 1), [AStr "Helvetica"]);
    ("FONTNAME", (0, 2), (-1, 2), [AStr "Helvetica-Bold"]);
    ("FONTSIZE", (0, 0), (-1, -1), [AInt 10]);
    ("GRID", (1, 0), (1, -1), [AInt 1; AColor "black"]);
    ("BACKGROUND", (1, 2), (1, 2), [AColor "lightgrey"]) ].

(** The body of [create_clean_french_invoice] between [story = []]
    and [doc.build(story)]. *)
Definition build_story : M (list flowable) :=
  let story := [] in
  (* Title *)
  let story := append story (Paragraph "FACTURE" title_style) in
  let story := append story (Spacer 1 20) in
  (* Company info *)
  let story := append story (Paragraph "<b>TECH SOLUTIONS SARL</b>" header_style) in
  let story := append story (Paragraph "123 Avenue des Champs-Élysées" normal_style) in
  let story := append story (Paragraph "75008 Paris, France" normal_style) in
  let story := append story (Paragraph "SIRET: 12345678901234" normal_style) in
  let story := append story (Paragraph "TVA: FR12345678901" normal_style) in
  let story := append story (Paragraph "Tél: 01 42 86 83 26" normal_style) in
  let story := append story (Spacer 1 20) in
  (* Invoice details *)
  let story := append story (Paragraph "<b>FACTURE N° FAC-2024-001234</b>" header_style) in
  issued <- now ;;
  let story := append story
    (Paragraph ("Date: " ++ strftime_dmY issued) normal_style) in
  today <- now ;;
  due <- lift (add today (timedelta_days 30)) ;;
  let story := append story
    (Paragraph ("Date d'échéance: " ++ strftime_dmY due) normal_style) in
  let story := append story (Spacer 1 20) in
  (* Client info *)
  let story := append story (Paragraph "<b>FACTURÉ À:</b>" header_style) in
  let story := append story (Paragraph "CLIENT ENTREPRISE SAS" normal_style) in
  let story := append story (Paragraph "456 Avenue des Clients" normal_style) in
  let story := append story (Paragraph "69000 Lyon, France" normal_style) in
  let story := append story (Paragraph "SIRET: 98765432109876" normal_style) in
  let story := append story (Spacer 1 20) in
  (* Services table *)
  let table :=
    Table data
          [num_mul (Int 3) inch; num_mul (Float (PyFloat.literal 8 1)) inch;
           num_mul (Float (PyFloat.literal 12 1)) inch;
           num_mul (Float (PyFloat.literal 12 1)) inch] [] in
  let table := setStyle table table_style in
  let story := append story table in
  let story := append story (Spacer 1 20) in
  (* Totals table *)
  let totals_table :=
    Table totals_data
          [num_mul (Int 4) inch; num_mul (Float (PyFloat.literal 15 1)) inch]
          [] in
  let totals_table := setStyle totals_table totals_style in
  let story := append story totals_table in
  let story := append story (Spacer 1 30) in
  (* Payment terms *)
  let story := append story (Paragraph "<b>Conditions de paiement:</b> 30 jours" normal_style) in
  let story := append story (Paragraph "<b>Mode de paiement:</b> Virement bancaire" normal_style) in
  let story := append story (Spacer 1 20) in
  (* Legal mentions *)
  let story := append story (Paragraph "En cas de retard de paiement, seront exigibles une indemnité de 40 EUR pour frais de recouvrement" legal_style) in
  let story := append story (Paragraph "et des intérêts de retard au taux de 10% (art. L441-6 du Code de commerce)." legal_style) in
  let story := append story (Paragraph "Aucun escompte pour paiement anticipé." legal_style) in
  ret story.

(** [doc.build(story)]: the library lays the story out, encodes the
    PDF and writes it to the document's file. *)
Definition build (doc : SimpleDocTemplate) (story : list flowable) : M unit :=
  fun w =>
    match reportlab_encode w doc story with
    | Ok bytes => write_file (doc_filename doc) bytes w
    | Raise e => (Raise e, w)
    end.

Definition create_clean_french_invoice : M string :=
  let doc := mk_doc filename "A4" in
  story <- build_story ;;
  build doc story >>
  ret filename.

Definition main : M unit :=
  print "Génération d'une facture française propre avec ReportLab..." >>
  filename <- create_clean_french_invoice ;;
  file_size <- getsize filename ;;
  print ("Facture générée: " ++ filename) >>
  print ("Taille du fichier: " ++ str_of_Z file_size ++ " bytes") >>
  print (newline ++ "Contenu de la facture:") >>
  print "- Émetteur: TECH SOLUTIONS SARL" >>
  print "- SIRET émetteur: 12345678901234" >>
  print "- TVA émetteur: FR12345678901" >>
  print "- Client: CLIENT ENTREPRISE SAS" >>
  print "- SIRET client: 98765432109876" >>
  print "- Numéro: FAC-2024-001234" >>
  print "- Total HT: 1850.00 EUR" >>
  print "- TVA 20%: 370.00 EUR" >>
  print "- Total TTC: 2220.00 EUR" >>
  print "- Conditions: 30 jours" >>
  print (newline ++ "Cette facture devrait être parfaitement lisible par pdf-parse!").

End Clean.

(* ================================================================== *)
(** * generate_french_invoice.py *)

Module French.
Import Fpdf.

(** ** [class FrenchInvoicePDF(FPDF)] *)

Definition header (self : FPDF) : FPDF :=
  let self := set_font self "Arial" "B" 16 in
  let self := cell self 0 10 "FACTURE" 0 1 "C" in
  ln self 10.

Definition footer (self : FPDF) : FPDF :=
  let self := set_y self (-15) in
  let self := set_font self "Arial" "I" 8 in
  cell self 0 10 ("Page " ++ str_of_Z (page_no self)) 0 0 "C".

(** [pdf.add_page()]: the page in progress, if any, is closed with its
    footer; the new page starts with the header.  (The invoice fits on
    one page, so no automatic page break occurs.) *)
Definition add_page (pdf : FPDF) : FPDF :=
  let pdf := if Z.ltb 0 (page pdf) then footer pdf else pdf in
  header (mk_fpdf (page pdf + 1) (ops pdf)).

(** [pdf.close()]: the last page is closed with its footer. *)
Definition close (pdf : FPDF) : FPDF :=
  let pdf := if Z.eqb (page pdf) 0 then add_page pdf else pdf in
  footer pdf.

(** [pdf.output(name)] *)
Definition output (pdf : FPDF) (name : string) : M unit :=
  fun w =>
    match fpdf_encode w (close pdf) with
    | Ok bytes => write_file name bytes w
    | Raise e => (Raise e, w)
    end.

(** ** The line items *)

(** [(desc, qty, unit_price, total)] *)
Definition service : Type := string * Z * PyFloat.t * PyFloat.t.

Definition services : list service :=
  [ ("Développement site web", 1, PyFloat.literal 100000 2, PyFloat.literal 100000 2);
    ("Maintenance mensuelle", 3, PyFloat.literal 15000 2, PyFloat.literal 45000 2);
    ("Formation utilisateurs", 2, PyFloat.literal 20000 2, PyFloat.literal 40000 2) ].

(** One turn of the [for] loop over the services. *)
Definition service_row (acc : FPDF * num) (s : service) : FPDF * num :=
  let '(pdf, total_ht) := acc in
  let '(desc, qty, unit_price, total) := s in
  let pdf := cell pdf 80 6 desc 1 0 "" in
  let pdf := cell pdf 20 6 (str_of_Z qty) 1 0 "C" in
  let pdf := cell pdf 25 6 (fmt2 (Float unit_price) ++ " EUR") 1 0 "R" in
  let pdf := cell pdf 25 6 (fmt2 (Float total) ++ " EUR") 1 1 "R" in
  (pdf, num_add total_ht (Float total)).

Definition tva_rate : num := Float (PyFloat.literal 20 2).

(** [generate_french_invoice], the list of line items made a
    parameter. *)
Definition generate_with (services : list service) : M FPDF :=
  let pdf := new in
  let pdf := add_page pdf in
  (* Company info *)
  let pdf := set_font pdf "Arial" "B" 12 in
  let pdf := cell pdf 0 8 "TECH SOLUTIONS SARL" 0 1 "" in
  let pdf := set_font pdf "Arial" "" 10 in
  let pdf := cell pdf 0 6 "123 Avenue des Champs-Élysées" 0 1 "" in
  let pdf := cell pdf 0 6 "75008 Paris, France" 0 1 "" in
  let pdf := cell pdf 0 6 "SIRET: 12345678901234" 0 1 "" in
  let pdf := cell pdf 0 6 "TVA: FR12345678901" 0 1 "" in
  let pdf := cell pdf 0 6 "Tél: 01 42 86 83 26" 0 1 "" in
  let pdf := ln pdf 10 in
  (* Invoice details *)
  let pdf := set_font pdf "Arial" "B" 11 in
  let pdf := cell pdf 0 8 "FACTURE N° FAC-2024-001234" 0 1 "" in
  let pdf := set_font pdf "Arial" "" 10 in
  issued <- now ;;
  let pdf := cell pdf 0 6 ("Date: " ++ strftime_dmY issued) 0 1 "" in
  today <- now ;;
  due <- lift (add today (timedelta_days 30)) ;;
  let pdf := cell pdf 0 6 ("Date d'échéance: " ++ strftime_dmY due) 0 1 "" in
  let pdf := ln pdf 10 in
  (* Client info *)
  let pdf := set_font pdf "Arial" "B" 11 in
  let pdf := cell pdf 0 8 "FACTURÉ À:" 0 1 "" in
  let pdf := set_font pdf "Arial" "" 10 in
  let pdf := cell pdf 0 6 "CLIENT ENTREPRISE SAS" 0 1 "" in
  let pdf := cell pdf 0 6 "456 Avenue des Clients" 0 1 "" in
  let pdf := cell pdf 0 6 "69000 Lyon, France" 0 1 "" in
  let pdf := cell pdf 0 6 "SIRET: 98765432109876" 0 1 "" in
  let pdf := ln pdf 10 in
  (* Services table header *)
  let pdf := set_font pdf "Arial" "B" 10 in
  let pdf := cell pdf 80 8 "Description" 1 0 "C" in
  let pdf := cell pdf 20 8 "Qté" 1 0 "C" in
  let pdf := cell pdf 25 8 "Prix unitaire" 1 0 "C" in
  let pdf := cell pdf 25 8 "Total HT" 1 1 "C" in
  (* Services *)
  let pdf := set_font pdf "Arial" "" 10 in
  let total_ht := Int 0 in
  let '(pdf, total_ht) := fold_left service_row services (pdf, total_ht) in
  (* Totals *)
  let pdf := ln pdf 5 in
  let pdf := set_font pdf "Arial" "B" 10 in
  let pdf := cell pdf 125 6 "Sous-total HT:" 0 0 "R" in
  let pdf := cell pdf 25 6 (fmt2 total_ht ++ " EUR") 1 1 "R" in
  let tva_amount := num_mul total_ht tva_rate in
  let pdf := cell pdf 125 6 "TVA (20%):" 0 0 "R" in
  let pdf := cell pdf 25 6 (fmt2 tva_amount ++ " EUR") 1 1 "R" in
  let total_ttc := num_add total_ht tva_amount in
  let pdf := set_font pdf "Arial" "B" 12 in
  let pdf := cell pdf 125 8 "TOTAL TTC:" 0 0 "R" in
  let pdf := cell pdf 25 8 (fmt2 total_ttc ++ " EUR") 1 1 "R" in
  (* Payment terms *)
  let pdf := ln pdf 10 in
  let pdf := set_font pdf "Arial" "" 10 in
  let pdf := cell pdf 0 6 "Conditions de paiement: 30 jours" 0 1 "" in
  let pdf := cell pdf 0 6 "Mode de paiement: Virement bancaire" 0 1 "" in
  let pdf := ln pdf 5 in
  (* Legal mentions *)
  let pdf := set_font pdf "Arial" "I" 8 in
  let pdf := cell pdf 0 4 "En cas de retard de paiement, seront exigibles une indemnite de 40 EUR pour frais de recouvrement" 0 1 "" in
  let pdf := cell pdf 0 4 "et des intérêts de retard au taux de 10% (art. L441-6 du Code de commerce)." 0 1 "" in
  let pdf := cell pdf 0 4 "Aucun escompte pour paiement anticipé." 0 1 "" in
  ret pdf.

Definition generate_french_invoice : M FPDF := generate_with services.

Definition main : M unit :=
  print "Génération d'une facture française pour InvoiceComply..." >>
  (* Generate PDF *)
  pdf <- generate_french_invoice ;;
  (* Save to file *)
  let output_file := "facture_test_invoicecomply.pdf" in
  output pdf output_file >>
  print ("Facture générée: " ++ output_file) >>
  size <- getsize output_file ;;
  print ("Taille du fichier: " ++ str_of_Z size ++ " bytes") >>
  (* Display content summary *)
  print (newline ++ "Contenu de la facture:") >>
  print "- Émetteur: TECH SOLUTIONS SARL" >>
  print "- SIRET émetteur: 12345678901234" >>
  print "- TVA émetteur: FR12345678901" >>
  print "- Client: CLIENT ENTREPRISE SAS" >>
  print "- SIRET client: 98765432109876" >>
  print "- Numéro: FAC-2024-001234" >>
  print "- Total HT: 1850.00 EUR" >>
  print "- TVA 20%: 370.00 EUR" >>
  print "- Total TTC: 2220.00 EUR" >>
  print "- Conditions: 30 jours".

End French.

(* ================================================================== *)
(** * Vocabulary of the properties *)

(** ** Text *)

(** The character [c] does not occur in [s]. *)
Fixpoint avoids (c : ascii) (s : string) : bool :=
  match s with
  | EmptyString => true
  | String x rest => negb (Ascii.eqb x c) && avoids c rest
  end.

(** A character that is neither a digit nor the minus sign. *)
Definition not_numeric (c : ascii) : Prop := avoids c "-0123456789" = true.

(** No character opens a tag. *)
Definition tag_free (s : string) : bool := avoids "<" s.

(** The text fits on one line. *)
Definition one_line (s : string) : bool := avoids (ascii_of_nat 10) s.


(** ** Runs *)

(** The world after one more clock reading. *)
Definition tick (w : world) : world := snd (now w).

(** The two readings the next run will get. *)
Definition reading1 (w : world) : datetime := clock w (ticks w).
Definition reading2 (w : world) : datetime := clock w (S (ticks w)).

(** The world with [out] printed after what was there. *)
Definition printed (w : world) (out : string) : world :=
  mk_world (clock w) (ticks w) (writable w) (files w) (stdout w ++ out)
           (reportlab_encode w) (fpdf_encode w).

(** The world with [content] stored under [path]. *)
Definition stored (w : world) (path : string) (content : list Byte.byte)
  : world :=
  mk_world (clock w) (ticks w) (writable w)
           (store_file path content (files w)) (stdout w)
           (reportlab_encode w) (fpdf_encode w).

(** The text of successive [print] calls. *)
Definition unlines (lines : list string) : string :=
  fold_right (fun l acc => l ++ newline ++ acc) "" lines.

(** The lines of an output, each ended by its newline. *)
Definition out_lines (out : string) : list string :=
  removelast (split_lines out).

Definition last_line (out : string) : option string :=
  match rev (out_lines out) with
  | [] => None
  | l :: _ => Some l
  end.

(** The due date a run starting in [w] will compute: thirty days after
    the second reading. *)
Definition due_date (w : world) : result datetime :=
  add (reading2 w) (timedelta_days 30).

(** ** The invoice text *)

(** The text run that follows the first run equal to [label]. *)
Fixpoint value_after (label : string) (runs : list string) : option string :=
  match runs with
  | a :: rest =>
      if String.eqb a label
      then match rest with b :: _ => Some b | [] => None end
      else value_after label rest
  | [] => None
  end.

Definition totals_shown (runs : list string) : Prop :=
  value_after "Sous-total HT:" runs = Some "1850.00 EUR" /\
  value_after "TVA (20%):" runs = Some "370.00 EUR" /\
  value_after "TOTAL TTC:" runs = Some "2220.00 EUR".


Definition text_head (issued due : string) : list string :=
  [ "FACTURE"; "TECH SOLUTIONS SARL"; "123 Avenue des Champs-Élysées";
    "75008 Paris, France"; "SIRET: 12345678901234"; "TVA: FR12345678901";
    "Tél: 01 42 86 83 26"; "FACTURE N° FAC-2024-001234";
    "Date: " ++ issued; "Date d'échéance: " ++ due; "FACTURÉ À:";
    "CLIENT ENTREPRISE SAS"; "456 Avenue des Clients"; "69000 Lyon, France";
    "SIRET: 98765432109876";
    "Description"; "Qté"; "Prix unitaire"; "Total HT" ].

Definition text_rows : list string :=
  [ "Développement site web"; "1"; "1000.00 EUR"; "1000.00 EUR";
    "Maintenance mensuelle"; "3"; "150.00 EUR"; "450.00 EUR";
    "Formation utilisateurs"; "2"; "200.00 EUR"; "400.00 EUR" ].

Definition text_totals (ttc_label ttc : string) : list string :=
  [ "Sous-total HT:"; "1850.00 EUR"; "TVA (20%):"; "370.00 EUR";
    ttc_label; ttc ].

Definition text_tail (legal1 : string) : list string :=
  [ "Conditions de paiement: 30 jours"; "Mode de paiement: Virement bancaire";
    legal1;
    "et des intérêts de retard au taux de 10% (art. L441-6 du Code de commerce).";
    "Aucun escompte pour paiement anticipé." ].

Definition legal1_accented : string :=
  "En cas de retard de paiement, seront exigibles une indemnité de 40 EUR pour frais de recouvrement".

Definition legal1_plain : string :=
  "En cas de retard de paiement, seront exigibles une indemnite de 40 EUR pour frais de recouvrement".

(** The text runs of the ReportLab story: the cells of the totals table
    are drawn with their tags. *)
Definition clean_text (issued due : string) : list string :=
  text_head issued due ++ text_rows
  ++ text_totals "<b>TOTAL TTC:</b>" "<b>2220.00 EUR</b>"
  ++ text_tail legal1_accented.

(** The strings of the ReportLab story with every tag removed. *)
Definition clean_content (issued due : string) : list string :=
  text_head issued due ++ text_rows ++ text_totals "TOTAL TTC:" "2220.00 EUR"
  ++ text_tail legal1_accented.

(** The text runs of the FPDF document as [generate_french_invoice]
    returns it (the page footer is drawn when the document is closed). *)
Definition french_text (issued due : string) : list string :=
  text_head issued due ++ text_rows ++ text_totals "TOTAL TTC:" "2220.00 EUR"
  ++ text_tail legal1_plain.

(** The tables of a story. *)
Definition story_tables (story : list ReportLab.flowable)
  : list (list (list string)) :=
  flat_map (fun f => match f with
                     | ReportLab.Table data _ _ => [data]
                     | _ => []
                     end) story.

(** The strings of a story with every tag removed. *)
Definition story_content (story : list ReportLab.flowable) : list string :=
  map ReportLab.strip_tags (ReportLab.story_strings story).

(** ** The FPDF variant over any list of line items *)

Definition total_of (s : French.service) : PyFloat.t := snd s.

(** [total_ht] after the loop: the fourth components, added in order
    to the integer [0]. *)
Definition sum_totals (svcs : list French.service) : num :=
  fold_left (fun acc s => num_add acc (Float (total_of s))) svcs (Int 0).

Definition tva_amount_of (total_ht : num) : num :=
  num_mul total_ht French.tva_rate.

Definition total_ttc_of (total_ht : num) : num :=
  num_add total_ht (tva_amount_of total_ht).

Definition row_ops (s : French.service) : list Fpdf.op :=
  let '(desc, qty, unit_price, total) := s in
  [ Fpdf.Cell 80 6 desc 1 0 "";
    Fpdf.Cell 20 6 (str_of_Z qty) 1 0 "C";
    Fpdf.Cell 25 6 (fmt2 (Float unit_price) ++ " EUR") 1 0 "R";
    Fpdf.Cell 25 6 (fmt2 (Float total) ++ " EUR") 1 1 "R" ].

Definition row_text (s : French.service) : list string :=
  flat_map Fpdf.op_text (row_ops s).

Definition totals_block (total_ht : num) : list string :=
  [ "Sous-total HT:"; fmt2 total_ht ++ " EUR";
    "TVA (20%):"; fmt2 (tva_amount_of total_ht) ++ " EUR";
    "TOTAL TTC:"; fmt2 (total_ttc_of total_ht) ++ " EUR" ].

(** ** Reading amounts back from text *)

Definition digit_of (c : ascii) : option Z :=
  let n := Z.of_nat (nat_of_ascii c) - 48 in
  if Z.leb 0 n && Z.leb n 9 then Some n else None.

Fixpoint read_digits (acc : Z) (s : string) : Z * string :=
  match s with
  | EmptyString => (acc, s)
  | String c rest =>
      match digit_of c with
      | Some d => read_digits (acc * 10 + d) rest
      | None => (acc, s)
      end
  end.

Definition starts_with_digit (s : string) : bool :=
  match s with
  | String c _ => match digit_of c with Some _ => true | None => false end
  | EmptyString => false
  end.

(** ["3"] is [3]. *)
Definition int_of_text (s : string) : option Z :=
  if starts_with_digit s
  then match read_digits 0 s with
       | (n, EmptyString) => Some n
       | _ => None
       end
  else None.

(** ["150.00 EUR"] is [15000] hundredths. *)
Definition cents_of_text (s : string) : option Z :=
  if starts_with_digit s
  then match read_digits 0 s with
       | (units, String "." (String a (String b " EUR"))) =>
           match digit_of a, digit_of b with
           | Some x, Some y => Some (units * 100 + x * 10 + y)
           | _, _ => None
           end
       | _ => None
       end
  else None.

(** Amounts of an invoice, in hundredths of a euro. *)
Record amounts : Type := mk_amounts {
  line_totals : list Z;
  subtotal : Z;
  tax : Z;
  grand_total : Z
}.

Definition sum_Z (l : list Z) : Z := fold_right Z.add 0 l.

(** grand total = subtotal x (1 + 20%), subtotal = sum of line totals. *)
Definition invoice_invariant (a : amounts) : Prop :=
  grand_total a * 100 = subtotal a * (100 + 20) /\
  subtotal a = sum_Z (line_totals a).

Fixpoint all_some {A} (l : list (option A)) : option (list A) :=
  match l with
  | [] => Some []
  | Some a :: rest =>
      match all_some rest with Some r => Some (a :: r) | None => None end
  | None :: _ => None
  end.

(** The amounts written in the two tables of the ReportLab variant. *)
Definition clean_amounts : option amounts :=
  match all_some (map (fun row => cents_of_text (nth 3 row "")) (tl Clean.data)),
        map (fun row => cents_of_text (ReportLab.strip_tags (nth 1 row "")))
            Clean.totals_data with
  | Some lines, [Some ht; Some tva; Some ttc] =>
      Some (mk_amounts lines ht tva ttc)
  | _, _ => None
  end.

(** The amounts computed by the FPDF variant, when each is a whole
    number of hundredths. *)
Definition french_amounts (svcs : list French.service) : option amounts :=
  let total_ht := sum_totals svcs in
  match all_some (map (fun s => PyFloat.exact_cents (total_of s)) svcs),
        PyFloat.exact_cents (to_float total_ht),
        PyFloat.exact_cents (to_float (tva_amount_of total_ht)),
        PyFloat.exact_cents (to_float (total_ttc_of total_ht)) with
  | Some lines, Some ht, Some tva, Some ttc =>
      Some (mk_amounts lines ht tva ttc)
  | _, _, _, _ => None
  end.

(** ** The printed summary *)

Definition recap : list string :=
  [ "- Émetteur: TECH SOLUTIONS SARL";
    "- SIRET émetteur: 12345678901234";
    "- TVA émetteur: FR12345678901";
    "- Client: CLIENT ENTREPRISE SAS";
    "- SIRET client: 98765432109876";
    "- Numéro: FAC-2024-001234";
    "- Total HT: 1850.00 EUR";
    "- TVA 20%: 370.00 EUR";
    "- Total TTC: 2220.00 EUR";
    "- Conditions: 30 jours" ].

(** A line of the field-by-field recap. *)
Definition is_recap_item (line : string) : bool := prefix "- " line.

(** What the summary reporter prints once the file is written. *)
Definition report (path : string) (size : Z) : list string :=
  [ "Facture générée: " ++ path;
    "Taille du fichier: " ++ str_of_Z size ++ " bytes";
    ""; "Contenu de la facture:" ] ++ recap.

Definition clean_confirmation : list string :=
  [ ""; "Cette facture devrait être parfaitement lisible par pdf-parse!" ].

Definition clean_banner : string :=
  "Génération d'une facture française propre avec ReportLab...".

Definition french_banner : string :=
  "Génération d'une facture française pour InvoiceComply...".

Definition french_file : string := "facture_test_invoicecomply.pdf".

(** The output ends with a line that is not an item of the recap. *)
Definition ends_with_confirmation (out : string) : Prop :=
  exists line,
    last_line out = Some line /\ line <> "" /\ is_recap_item line = false.

Definition summary_shows_totals (lines : list string) : Prop :=
  In "- Total HT: 1850.00 EUR" lines /\
  In "- TVA 20%: 370.00 EUR" lines /\
  In "- Total TTC: 2220.00 EUR" lines.

(** The summary contract as the specification words it: once [main]
    has returned, the size of the file at [path] and every item of the
    recap have been printed, and the output ends with a confirmation
    line. *)
Definition summary_contract (main : M unit) (path : string) (w : world)
  : Prop :=
  forall w',
    main w = (Ok tt, w') ->
    exists bytes out,
      lookup_file path (files w') = Some bytes /\
      stdout w' = stdout w ++ out /\
      In ("Taille du fichier: " ++ str_of_Z (Z.of_nat (List.length bytes))
          ++ " bytes") (out_lines out) /\
      (forall item, In item recap -> In item (out_lines out)) /\
      ends_with_confirmation out.

(** ** Sample worlds *)

Definition pdf_magic : list Byte.byte :=
  [Byte.x25; Byte.x50; Byte.x44; Byte.x46].

(** A world whose clock gives [r1], then [r2] ever after; every path is
    writable and both encoders return four bytes. *)
Definition sample_world (r1 r2 : datetime) : world :=
  mk_world (fun n => match n with O => r1 | _ => r2 end) 0
           (fun _ => true) [] ""
           (fun _ _ => Ok pdf_magic) (fun _ => Ok pdf_magic).

Definition noon_jan15 : datetime := mk_datetime 2024 1 15 12 0 0 0.
Definition before_midnight : datetime := mk_datetime 2024 1 15 23 59 59 999999.
Definition after_midnight : datetime := mk_datetime 2024 1 16 0 0 0 0.

(** The literals the compliance checker looks for. *)
Definition required_literals : list string :=
  [ "TECH SOLUTIONS SARL"; "12345678901234"; "FR12345678901";
    "CLIENT ENTREPRISE SAS"; "98765432109876"; "FAC-2024-001234";
    "1850.00"; "370.00"; "2220.00"; "30 jours" ].

(** [lit] occurs inside one of the text runs. *)
Definition occurs_in (runs : list string) (lit : string) : Prop :=
  exists run before after, In run runs /\ run = before ++ lit ++ after.

(** The line items with other quantities and unit prices, the line
    totals kept. *)
Definition altered_services : list French.service :=
  [ ("Développement site web", 7, PyFloat.literal 99 2, PyFloat.literal 100000 2);
    ("Maintenance mensuelle", 0, PyFloat.literal 1 2, PyFloat.literal 45000 2);
    ("Formation utilisateurs", 5, PyFloat.literal 123456 2, PyFloat.literal 40000 2) ].

(** ** Pages of the FPDF document *)

(** [n] calls of [add_page] on a new document. *)
Definition blank_pages (n : nat) : Fpdf.FPDF :=
  Nat.iter n French.add_page Fpdf.new.

(** The title and the footer of page [k]. *)
Definition page_furniture (k : nat) : list string :=
  [ "FACTURE"; "Page " ++ str_of_Z (Z.of_nat k) ].

(** ** Reading a date back *)

(** ["14/02/2024"] is [(14, 2, 2024)]. *)
Definition parse_dmY (s : string) : option (Z * Z * Z) :=
  match s with
  | String d1 (String d2 (String "/" (String m1 (String m2 (String "/"
      (String y1 (String y2 (String y3 (String y4 EmptyString))))))))) =>
      match digit_of d1, digit_of d2, digit_of m1, digit_of m2,
            digit_of y1, digit_of y2, digit_of y3, digit_of y4 with
      | Some a, Some b, Some c, Some d, Some e, Some f, Some g, Some h =>
          Some (a * 10 + b, c * 10 + d, ((e * 10 + f) * 10 + g) * 10 + h)
      | _, _, _, _, _, _, _, _ => None
      end
  | _ => None
  end.

(** Microseconds from the start of day one to a reading. *)
Definition timestamp (dt : datetime) : Z :=
  ((toordinal dt * 86400 + hour dt * 3600 + minute dt * 60 + second dt)
   * 1000000) + microsecond dt.

(** ** Digits of a date *)

(** [v], padded to two digits, is two digit characters that read back
    as [v]. *)
Definition two_digits_ok (v : Z) : bool :=
  match zfill 2 (str_of_Z v) with
  | String a (String b EmptyString) =>
      match digit_of a, digit_of b with
      | Some x, Some y => Z.eqb (x * 10 + y) v
      | _, _ => false
      end
  | _ => false
  end.

Definition four_digits_ok (v : Z) : bool :=
  match zfill 4 (str_of_Z v) with
  | String a (String b (String c (String d EmptyString))) =>
      match digit_of a, digit_of b, digit_of c, digit_of d with
      | Some x, Some y, Some z, Some t =>
          Z.eqb (((x * 10 + y) * 10 + z) * 10 + t) v
      | _, _, _, _ => false
      end
  | _ => false
  end.

(** The number written by the digits [d] after the digits that gave
    [acc]. *)
Fixpoint uint_value (acc : Z) (d : Decimal.uint) : Z :=
  match d with
  | Decimal.Nil => acc
  | Decimal.D0 l => uint_value (acc * 10 + 0) l
  | Decimal.D1 l => uint_value (acc * 10 + 1) l
  | Decimal.D2 l => uint_value (acc * 10 + 2) l
  | Decimal.D3 l => uint_value (acc * 10 + 3) l
  | Decimal.D4 l => uint_value (acc * 10 + 4) l
  | Decimal.D5 l => uint_value (acc * 10 + 5) l
  | Decimal.D6 l => uint_value (acc * 10 + 6) l
  | Decimal.D7 l => uint_value (acc * 10 + 7) l
  | Decimal.D8 l => uint_value (acc * 10 + 8) l
  | Decimal.D9 l => uint_value (acc * 10 + 9) l
  end.

(** ** Characters a core font of FPDF can draw *)

(** Every byte is below 128. *)
Fixpoint ascii_only (s : string) : bool :=
  match s with
  | EmptyString => true
  | String c rest => Nat.ltb (nat_of_ascii c) 128 && ascii_only rest
  end.

(** The UTF-8 text holds only characters up to U+00FF: single bytes, or
    a lead byte C2 or C3 followed by one continuation byte.  [pending]
    tells that a continuation byte is awaited. *)
Fixpoint latin1_from (pending : bool) (s : string) : bool :=
  match s with
  | EmptyString => negb pending
  | String c rest =>
      let n := nat_of_ascii c in
      if pending
      then Nat.leb 128 n && Nat.ltb n 192 && latin1_from false rest
      else if Nat.ltb n 128 then latin1_from false rest
           else (Nat.eqb n 194 || Nat.eqb n 195) && latin1_from true rest
  end.

Definition latin1_text (s : string) : bool := latin1_from false s.

Definition desc_of (s : French.service) : string :=
  let '(desc, _, _, _) := s in desc.

(** ** What a generator hands to its library *)

(** The outcome of [create_clean_french_invoice] in [w] is that of
    encoding [story] and writing the bytes to the output file: [story] is
    the document the generator hands to [doc.build]. *)
Definition clean_renders (w : world) (story : list ReportLab.flowable)
  : Prop :=
  Clean.create_clean_french_invoice w =
  match reportlab_encode w (ReportLab.mk_doc Clean.filename "A4") story with
  | Ok bytes =>
      if writable w Clean.filename
      then (Ok Clean.filename, stored (tick (tick w)) Clean.filename bytes)
      else (Raise (PermissionError Clean.filename), tick (tick w))
  | Raise e => (Raise e, tick (tick w))
  end.

(** ** Amounts read from the text runs of a document *)

(** The amount, in hundredths, written in the run that follows [label]
    (tags around the amount are passed over). *)
Definition amount_after (label : string) (runs : list string) : option Z :=
  match value_after label runs with
  | Some v => cents_of_text (ReportLab.strip_tags v)
  | None => None
  end.

(** The three totals as drawn, [ttc_label] and [ttc] being the runs of
    the grand total. *)
Definition totals_drawn (ttc_label ttc : string) (runs : list string) : Prop :=
  value_after "Sous-total HT:" runs = Some "1850.00 EUR" /\
  value_after "TVA (20%):" runs = Some "370.00 EUR" /\
  value_after ttc_label runs = Some ttc /\
  amount_after "Sous-total HT:" runs = Some 185000 /\
  amount_after "TVA (20%):" runs = Some 37000 /\
  amount_after ttc_label runs = Some 222000.

(** The runs after the first run equal to [label]. *)
Fixpoint after_run (label : string) (runs : list string) : list string :=
  match runs with
  | [] => []
  | a :: rest => if String.eqb a label then rest else after_run label rest
  end.

(** The runs before the first run equal to [label]. *)
Fixpoint before_run (label : string) (runs : list string) : list string :=
  match runs with
  | [] => []
  | a :: rest => if String.eqb a label then [] else a :: before_run label rest
  end.

(** The last cell of each row of four cells. *)
Fixpoint fourth_cells (runs : list string) : list string :=
  match runs with
  | _ :: _ :: _ :: t :: rest => t :: fourth_cells rest
  | _ => []
  end.

(** The amounts of the invoice as a reader of the document finds them:
    the line totals in the last column of the rows between the header
    of the table and the subtotal, then the three totals. *)
Definition amounts_of_runs (ttc_label : string) (runs : list string)
  : option amounts :=
  match all_some (map cents_of_text
                      (fourth_cells
                         (before_run "Sous-total HT:"
                                     (after_run "Total HT" runs)))),
        amount_after "Sous-total HT:" runs,
        amount_after "TVA (20%):" runs,
        amount_after ttc_label runs with
  | Some lines, Some ht, Some tva, Some ttc =>
      Some (mk_amounts lines ht tva ttc)
  | _, _, _, _ => None
  end.

(** ** Rows that read back *)

(** A line item whose quantity is not negative and whose unit price and
    total are whole, non-negative numbers of hundredths (negative zero
    apart). *)
Definition readable (s : French.service) : Prop :=
  let '(_, qty, unit_price, total) := s in
  0 <= qty /\
  (exists u, PyFloat.exact_cents unit_price = Some u /\ 0 <= u) /\
  unit_price <> S754_zero true /\
  (exists c, PyFloat.exact_cents total = Some c /\ 0 <= c) /\
  total <> S754_zero true.

(** [row] is four cells that read back as the line item [s]. *)
Definition reads_back (s : French.service) (row : list string) : Prop :=
  let '(desc, qty, unit_price, total) := s in
  exists c2 c3 c4,
    row = [desc; c2; c3; c4] /\
    int_of_text c2 = Some qty /\
    cents_of_text c3 = PyFloat.exact_cents unit_price /\
    cents_of_text c4 = PyFloat.exact_cents total.

(* ================================================================== *)
(** * The model on known values *)

Section KnownValues.

(** [0.20] is the double [0x3FC999999999999A]; it is within half a unit
    in the last place of one fifth: [|m/2^55 - 1/5| <= 2^-56]. *)
Example literal_0_20 :
  PyFloat.literal 20 2 = S754_finite false 7205759403792794 (-55) /\
  2 * Z.abs (5 * 7205759403792794 - 2 ^ 55) <= 5.
Proof. split; [reflexivity | vm_compute; discriminate]. Qed.

(** ['%.2f'] rounds the exact binary value, ties to even. *)
Example format_2f_rounding :
  fmt2 (Float (PyFloat.literal 125 3)) = "0.12" /\
  fmt2 (Float (PyFloat.literal 375 3)) = "0.38" /\
  fmt2 (Float (PyFloat.literal 2675 3)) = "2.67" /\
  fmt2 (Float (PyFloat.literal 1005 1)) = "100.50" /\
  fmt2 (Int 0) = "0.00".
Proof. repeat split; reflexivity. Qed.

Example ordinals :
  ymd2ord 1 1 1 = 1 /\ ymd2ord 2024 1 15 = 738900 /\
  ymd2ord 9999 12 31 = MAXORDINAL /\
  ord2ymd 738930 = (2024, 2, 14) /\ ord2ymd (ymd2ord 2024 2 29) = (2024, 2, 29).
Proof. repeat split; reflexivity. Qed.

Example add_overflows :
  add (mk_datetime 9999 12 2 0 0 0 0) (timedelta_days 30)
  = Raise (OverflowError "date value out of range") /\
  add (mk_datetime 9999 12 1 23 59 59 999999) (timedelta_days 30)
  = Ok (mk_datetime 9999 12 31 23 59 59 999999).
Proof. split; reflexivity. Qed.

End KnownValues.

(* ================================================================== *)
(** * Properties of the date arithmetic *)

Ltac eval_tables :=
  repeat match goal with
         | |- context [tbl ?t ?k] =>
             let v := eval vm_compute in (tbl t k) in change (tbl t k) with v
         | |- context [b2z ?b] =>
             let v := eval vm_compute in (b2z b) in change (b2z b) with v
         | |- context [andb ?a ?b] =>
             let v := eval vm_compute in (andb a b) in change (andb a b) with v
         end.

Section DateArithmetic.

Lemma month_part (leap : bool) (r : Z) :
  0 <= r < 365 + b2z leap ->
  let m := Z.shiftr (r + 50) 5 in
  let preceding := tbl DAYS_BEFORE_MONTH m + b2z (Z.ltb 2 m && leap) in
  let '(m', d') :=
    if Z.ltb r preceding
    then (m - 1, r - (preceding - (tbl DAYS_IN_MONTH (m - 1) + b2z (Z.eqb (m - 1) 2 && leap))) + 1)
    else (m, r - preceding + 1) in
  1 <= m' <= 12 /\ 1 <= d' <= (if Z.eqb m' 2 && leap then 29 else tbl DAYS_IN_MONTH m') /\
  tbl DAYS_BEFORE_MONTH m' + b2z (Z.ltb 2 m' && leap) + d' = r + 1.
Proof.
  intros H; cbv zeta.
  rewrite Z.shiftr_div_pow2 by lia.
  change (2 ^ 5) with 32.
  assert (Hm : 1 <= (r + 50) / 32 <= 12).
  { destruct leap; simpl in H; split.
    all: try (apply Z.div_le_lower_bound; lia).
    all: apply Z.lt_succ_r; apply Z.div_lt_upper_bound; lia. }
  remember ((r + 50) / 32) as m eqn:Em.
  assert (Hr : 32 * m <= r + 50 < 32 * m + 32).
  { subst m. pose proof (Z.mul_div_le (r + 50) 32 ltac:(lia)).
    pose proof (Z.mul_succ_div_gt (r + 50) 32 ltac:(lia)). lia. }
  clear Em.
  assert (Hc : m = 1 \/ m = 2 \/ m = 3 \/ m = 4 \/ m = 5 \/ m = 6 \/ m = 7 \/
               m = 8 \/ m = 9 \/ m = 10 \/ m = 11 \/ m = 12) by lia.
  destruct leap; simpl in H;
  repeat (destruct Hc as [Hc | Hc]); subst m;
  repeat match goal with
         | |- context [tbl ?t ?k] =>
             let v := eval vm_compute in (tbl t k) in change (tbl t k) with v
         | |- context [b2z ?b] =>
             let v := eval vm_compute in (b2z b) in change (b2z b) with v
         end;
  match goal with |- context [Z.ltb r ?p] => destruct (Z.ltb_spec r p) end;
  repeat match goal with
         | |- context [tbl ?t ?k] =>
             let v := eval vm_compute in (tbl t k) in change (tbl t k) with v
         | |- context [b2z ?b] =>
             let v := eval vm_compute in (b2z b) in change (b2z b) with v
         | |- context [andb ?a ?b] =>
             let v := eval vm_compute in (andb a b) in change (andb a b) with v
         end;
  cbv iota; lia.
Qed.

Lemma is_leap_spec (a b c d : Z) :
  0 <= b <= 3 -> 0 <= c <= 24 -> 0 <= d <= 3 ->
  is_leap (a * 400 + 1 + b * 100 + c * 4 + d) =
  Z.eqb d 3 && (negb (Z.eqb c 24) || Z.eqb b 3).
Proof.
  intros Hb Hc Hd. unfold is_leap.
  repeat match goal with
         | |- context [Z.eqb ?x ?y] => destruct (Z.eqb_spec x y)
         end;
    simpl; try reflexivity; exfalso; Z.div_mod_to_equations; lia.
Qed.

Lemma days_before_year_split (a b c d : Z) :
  0 <= b <= 3 -> 0 <= c <= 24 -> 0 <= d <= 3 ->
  days_before_year (a * 400 + 1 + b * 100 + c * 4 + d) =
  a * 146097 + b * 36524 + c * 1461 + d * 365.
Proof.
  intros Hb Hc Hd. unfold days_before_year. cbv zeta.
  replace (a * 400 + 1 + b * 100 + c * 4 + d - 1)
    with (a * 400 + b * 100 + c * 4 + d) by lia.
  assert (E4 : (a * 400 + b * 100 + c * 4 + d) / 4 = a * 100 + b * 25 + c).
  { symmetry. apply (Z.div_unique _ 4 _ d); lia. }
  assert (E100 : (a * 400 + b * 100 + c * 4 + d) / 100 = a * 4 + b).
  { symmetry. apply (Z.div_unique _ 100 _ (c * 4 + d)); lia. }
  assert (E400 : (a * 400 + b * 100 + c * 4 + d) / 400 = a).
  { symmetry. apply (Z.div_unique _ 400 _ (b * 100 + c * 4 + d)); lia. }
  rewrite E4, E100, E400. lia.
Qed.

Lemma ord2ymd_spec (n : Z) :
  1 <= n <= MAXORDINAL ->
  let '(y, m, d) := ord2ymd n in
  ymd2ord y m d = n /\ MINYEAR <= y <= MAXYEAR /\ 1 <= m <= 12 /\
  1 <= d <= days_in_month y m.
Proof.
  unfold MAXORDINAL, MINYEAR, MAXYEAR. intros Hn. unfold ord2ymd. cbv zeta.
  unfold DI400Y, DI100Y, DI4Y.
  set (n0 := n - 1).
  set (a := n0 / 146097). set (r400 := n0 mod 146097).
  set (b := r400 / 36524). set (r100 := r400 mod 36524).
  set (c := r100 / 1461). set (r4 := r100 mod 1461).
  set (d := r4 / 365). set (r1 := r4 mod 365).
  assert (Ha : n0 = 146097 * a + r400 /\ 0 <= r400 < 146097).
  { split; [apply Z.div_mod; lia | apply Z.mod_pos_bound; lia]. }
  assert (Hb : r400 = 36524 * b + r100 /\ 0 <= r100 < 36524).
  { split; [apply Z.div_mod; lia | apply Z.mod_pos_bound; lia]. }
  assert (Hc : r100 = 1461 * c + r4 /\ 0 <= r4 < 1461).
  { split; [apply Z.div_mod; lia | apply Z.mod_pos_bound; lia]. }
  assert (Hd : r4 = 365 * d + r1 /\ 0 <= r1 < 365).
  { split; [apply Z.div_mod; lia | apply Z.mod_pos_bound; lia]. }
  assert (Hn0 : 0 <= n0 <= 3652058 /\ n = n0 + 1) by (unfold n0; lia).
  clearbody a r400 b r100 c r4 d r1 n0.
  assert (Ba : 0 <= a <= 24) by lia.
  assert (Bb : 0 <= b <= 4) by lia.
  assert (Bc : 0 <= c <= 24) by lia.
  assert (Bd : 0 <= d <= 4) by lia.
  destruct (Z.eqb_spec d 4) as [Ed | Ed]; [|destruct (Z.eqb_spec b 4) as [Eb | Eb]];
    cbn [orb].
  - (* last day of a leap year inside a 4-year block *)
    assert (Bb' : 0 <= b <= 3) by lia.
    assert (Bc' : 0 <= c <= 23) by lia.
    replace (a * 400 + 1 + b * 100 + c * 4 + d - 1)
      with (a * 400 + 1 + b * 100 + c * 4 + 3) by lia.
    unfold ymd2ord, days_in_month, days_before_month.
    rewrite days_before_year_split, is_leap_spec by lia.
    replace (Z.eqb c 24) with false by (symmetry; apply Z.eqb_neq; lia).
    eval_tables. cbv iota. lia.
  - (* last day of a 400-year cycle *)
    replace (a * 400 + 1 + b * 100 + c * 4 + d - 1)
      with (a * 400 + 1 + 3 * 100 + 24 * 4 + 3) by lia.
    unfold ymd2ord, days_in_month, days_before_month.
    rewrite days_before_year_split, is_leap_spec by lia.
    eval_tables. cbv iota. lia.
  - assert (Bb' : 0 <= b <= 3) by lia.
    assert (Bd' : 0 <= d <= 3) by lia.
    rewrite <- (is_leap_spec a b c d) by lia.
    set (y := a * 400 + 1 + b * 100 + c * 4 + d).
    assert (Hy : days_before_year y = n0 - r1).
    { unfold y. rewrite days_before_year_split by lia. lia. }
    assert (By : 1 <= y <= 9999) by (unfold y; lia).
    pose proof (month_part (is_leap y) r1) as Hm.
    cbv zeta in Hm.
    assert (Hr1 : 0 <= r1 < 365 + b2z (is_leap y))
      by (destruct (is_leap y); simpl; lia).
    specialize (Hm Hr1).
    unfold ymd2ord, days_in_month, days_before_month.
    destruct (Z.ltb r1 _); lia.
Qed.

Lemma days_before_year_nonneg (y : Z) : 1 <= y -> 0 <= days_before_year y.
Proof.
  intros Hy. unfold days_before_year. cbv zeta.
  Z.div_mod_to_equations. lia.
Qed.

Lemma toordinal_pos (dt : datetime) : valid dt = true -> 1 <= toordinal dt.
Proof.
  unfold valid. intros H.
  repeat (apply andb_prop in H; destruct H as [H ?]).
  unfold toordinal, ymd2ord, days_before_month, MINYEAR in *.
  pose proof (days_before_year_nonneg (year dt)).
  assert (Hm : month dt = 1 \/ month dt = 2 \/ month dt = 3 \/ month dt = 4 \/
               month dt = 5 \/ month dt = 6 \/ month dt = 7 \/ month dt = 8 \/
               month dt = 9 \/ month dt = 10 \/ month dt = 11 \/ month dt = 12)
    by lia.
  assert (0 <= tbl DAYS_BEFORE_MONTH (month dt))
    by (repeat (destruct Hm as [Hm | Hm]); rewrite Hm; vm_compute; congruence).
  assert (0 <= b2z (Z.ltb 2 (month dt) && is_leap (year dt)))
    by (destruct (_ && _); simpl; lia).
  lia.
Qed.

(** Adding whole days to a valid reading: the result, when it is in
    range, is a valid date exactly that many days later, at the same
    time of day. *)
Lemma add_days_spec (dt : datetime) (n : Z) :
  valid dt = true ->
  0 < toordinal dt + n <= MAXORDINAL ->
  exists due,
    add dt (timedelta_days n) = Ok due /\
    toordinal due = toordinal dt + n /\
    valid due = true /\
    (hour due, minute due, second due, microsecond due)
    = (hour dt, minute dt, second dt, microsecond dt) /\
    (year due, month due, day due) = ord2ymd (toordinal dt + n).
Proof.
  intros Hv Hr.
  unfold valid in Hv.
  repeat (apply andb_prop in Hv; destruct Hv as [Hv ?]).
  unfold add, timedelta_days. cbn [days seconds microseconds]. cbv zeta.
  assert (Eus : (microsecond dt + 0) / 1000000 = 0)
    by (apply Z.div_small; lia).
  assert (Eus' : (microsecond dt + 0) mod 1000000 = microsecond dt)
    by (rewrite Z.add_0_r; apply Z.mod_small; lia).
  rewrite Eus, Eus'.
  set (s := hour dt * 3600 + minute dt * 60 + second dt + 0 + 0).
  assert (Bs : 0 <= s < 86400) by (unfold s; lia).
  rewrite (Z.div_small s 86400), (Z.mod_small s 86400) by lia.
  replace (toordinal dt + n + 0) with (toordinal dt + n) by lia.
  replace (Z.ltb 0 (toordinal dt + n) && Z.leb (toordinal dt + n) MAXORDINAL)
    with true
    by (symmetry; apply andb_true_intro; split;
        [apply Z.ltb_lt | apply Z.leb_le]; lia).
  pose proof (ord2ymd_spec (toordinal dt + n) ltac:(lia)) as Ho.
  destruct (ord2ymd (toordinal dt + n)) as [[y m] d].
  destruct Ho as (Ho & Hy & Hm & Hd).
  assert (Eh : s / 3600 = hour dt).
  { symmetry. apply (Z.div_unique s 3600 _ (minute dt * 60 + second dt));
      unfold s; lia. }
  assert (Em : s mod 3600 = minute dt * 60 + second dt).
  { symmetry. apply (Z.mod_unique s 3600 (hour dt)); unfold s; lia. }
  assert (Emi : (s mod 3600) / 60 = minute dt).
  { rewrite Em. symmetry.
    apply (Z.div_unique _ 60 _ (second dt)); lia. }
  assert (Es : s mod 60 = second dt).
  { symmetry. apply (Z.mod_unique s 60 (hour dt * 60 + minute dt));
      unfold s; lia. }
  rewrite Eh, Emi, Es.
  eexists. split; [reflexivity|].
  split; [exact Ho|]. split; [|split; reflexivity].
  unfold valid. cbn [year month day hour minute second microsecond].
  repeat (apply andb_true_intro; split);
    first [apply Z.leb_le | apply Z.ltb_lt]; lia.
Qed.

End DateArithmetic.

(* ================================================================== *)
(** * Text: substrings, markup-free strings *)

Section Text.

Lemma prefix_app (p s : string) :
  prefix p s = true -> exists rest, s = p ++ rest.
Proof.
  revert s. induction p as [|c p IH]; intros s H.
  - exists s. reflexivity.
  - destruct s as [|c' s]; [discriminate|].
    simpl in H. destruct (ascii_dec c c') as [-> | _]; [|discriminate].
    destruct (IH s H) as [rest ->]. exists rest. reflexivity.
Qed.

(** [contains] finds genuine occurrences. *)
Lemma contains_occurs (needle hay : string) :
  contains needle hay = true ->
  exists before after, hay = before ++ needle ++ after.
Proof.
  induction hay as [|c hay IH]; cbn [contains]; intros H.
  - rewrite orb_false_r in H. destruct (prefix_app _ _ H) as [rest E].
    exists "", rest. exact E.
  - apply orb_prop in H. destruct H as [H | H].
    + destruct (prefix_app _ _ H) as [rest E]. exists "", rest. exact E.
    + destruct (IH H) as (b & a & ->). exists (String c b), a. reflexivity.
Qed.

Lemma strip_tags_tag_free (s : string) :
  tag_free s = true -> ReportLab.strip_tags s = s.
Proof.
  unfold ReportLab.strip_tags, tag_free.
  induction s as [|c s IH]; simpl; intros H; [reflexivity|].
  apply andb_prop in H. destruct H as [Hc Hs].
  destruct (Ascii.eqb c "<"); [discriminate|].
  rewrite IH by exact Hs. reflexivity.
Qed.

Lemma avoids_app (c : ascii) (a b : string) :
  avoids c (a ++ b) = avoids c a && avoids c b.
Proof.
  induction a as [|x a IH]; simpl; [reflexivity|].
  rewrite IH, andb_assoc. reflexivity.
Qed.

Lemma avoids_digits (c : ascii) (d : Decimal.uint) :
  not_numeric c -> avoids c (NilEmpty.string_of_uint d) = true.
Proof.
  unfold not_numeric. cbn [avoids]. intros H.
  repeat (apply andb_prop in H; destruct H as [? H]).
  induction d; cbn [NilEmpty.string_of_uint avoids]; auto using andb_true_intro.
Qed.

Lemma avoids_str_of_N (c : ascii) (n : N) :
  not_numeric c -> avoids c (str_of_N n) = true.
Proof.
  intros H. unfold str_of_N, NilZero.string_of_uint.
  destruct (N.to_uint n); try (apply avoids_digits; exact H).
  apply (avoids_digits c (Decimal.D0 Decimal.Nil) H).
Qed.

Lemma avoids_str_of_Z (c : ascii) (z : Z) :
  not_numeric c -> avoids c (str_of_Z z) = true.
Proof.
  intros H. destruct z; cbn [str_of_Z]; try (apply avoids_str_of_N; exact H).
  rewrite avoids_app, avoids_str_of_N by exact H.
  unfold not_numeric in H. cbn [avoids] in *.
  apply andb_prop in H. destruct H as [H _]. rewrite H. reflexivity.
Qed.

Lemma avoids_zfill (c : ascii) (w : nat) (s : string) :
  Ascii.eqb "0" c = false -> avoids c s = true -> avoids c (zfill w s) = true.
Proof.
  unfold zfill. intros H0 H.
  induction (w - String.length s)%nat; cbn [zfill_aux avoids]; auto.
  rewrite H0. auto.
Qed.

Lemma tag_free_strftime (dt : datetime) : tag_free (strftime_dmY dt) = true.
Proof.
  unfold strftime_dmY, tag_free.
  rewrite !avoids_app, !avoids_zfill;
    try reflexivity; apply avoids_str_of_Z; reflexivity.
Qed.

Lemma string_app_assoc (a b c : string) : (a ++ b) ++ c = a ++ (b ++ c).
Proof. induction a as [|x a IH]; cbn; [reflexivity | now rewrite IH]. Qed.

Lemma string_app_nil_r (a : string) : a ++ "" = a.
Proof. induction a as [|x a IH]; cbn; [reflexivity | now rewrite IH]. Qed.

Lemma unlines_snoc (ls : list string) (l : string) :
  unlines ls ++ (l ++ newline) = unlines (ls ++ [l]).
Proof.
  induction ls as [|x ls IH]; cbn [unlines fold_right app].
  - rewrite string_app_nil_r. reflexivity.
  - fold (unlines ls). fold (unlines (ls ++ [l])).
    rewrite !string_app_assoc, IH. reflexivity.
Qed.

Lemma split_lines_aux_line (cur l rest : string) :
  one_line l = true ->
  split_lines_aux cur (l ++ newline ++ rest)
  = (cur ++ l) :: split_lines_aux "" rest.
Proof.
  unfold one_line. revert cur.
  induction l as [|x l IH]; intros cur H.
  - cbn. rewrite string_app_nil_r. reflexivity.
  - cbn [avoids] in H. apply andb_prop in H. destruct H as [Hx Hl].
    cbn [append split_lines_aux].
    destruct (Ascii.eqb x (ascii_of_nat 10)); [discriminate|].
    rewrite IH by exact Hl. rewrite string_app_assoc. reflexivity.
Qed.

Lemma split_lines_unlines (ls : list string) :
  Forall (fun l => one_line l = true) ls ->
  split_lines (unlines ls) = (ls ++ [""])%list.
Proof.
  unfold split_lines. induction 1 as [|l ls Hl _ IH]; [reflexivity|].
  cbn [unlines fold_right]. fold (unlines ls).
  rewrite split_lines_aux_line by exact Hl. rewrite IH. reflexivity.
Qed.

Lemma out_lines_unlines (ls : list string) :
  Forall (fun l => one_line l = true) ls -> out_lines (unlines ls) = ls.
Proof.
  intros H. unfold out_lines. rewrite split_lines_unlines by exact H.
  apply removelast_last.
Qed.

Lemma last_line_unlines (ls : list string) (l : string) :
  Forall (fun l => one_line l = true) (ls ++ [l]) ->
  last_line (unlines (ls ++ [l])) = Some l.
Proof.
  intros H. unfold last_line. rewrite out_lines_unlines by exact H.
  rewrite rev_app_distr. reflexivity.
Qed.

Lemma one_line_size (n : Z) :
  one_line ("Taille du fichier: " ++ str_of_Z n ++ " bytes") = true.
Proof.
  unfold one_line. rewrite !avoids_app, avoids_str_of_Z; reflexivity.
Qed.

Lemma report_one_line (path : string) (size : Z) :
  one_line path = true ->
  Forall (fun l => one_line l = true) (report path size).
Proof.
  intros Hp. unfold report, recap. cbn [app].
  repeat constructor.
  - unfold one_line in *. rewrite avoids_app, Hp. reflexivity.
  - apply one_line_size.
Qed.

End Text.

(* ================================================================== *)
(** * Runs of the two generators *)

Section Runs.

Lemma print_run (s : string) (w : world) :
  print s w = (Ok tt, printed w (s ++ newline)).
Proof. reflexivity. Qed.

Lemma printed_printed (w : world) (a b : string) :
  printed (printed w a) b = printed w (a ++ b).
Proof.
  unfold printed. cbn. rewrite string_app_assoc. reflexivity.
Qed.

Lemma printed_nil (w : world) : printed w "" = w.
Proof.
  unfold printed. rewrite string_app_nil_r. destruct w; reflexivity.
Qed.

(** One [print] after some lines were printed. *)
Lemma print_next {A} (s : string) (k : M A) (w : world) (ls : list string) :
  (print s >> k) (printed w (unlines ls)) = k (printed w (unlines (ls ++ [s]))).
Proof.
  unfold bind. rewrite print_run, printed_printed, unlines_snoc. reflexivity.
Qed.

Lemma print_first {A} (s : string) (k : M A) (w : world) :
  (print s >> k) w = k (printed w (unlines [s])).
Proof.
  rewrite <- (printed_nil w) at 1. apply (print_next s k w []).
Qed.

Lemma lookup_store (path : string) (content : list Byte.byte)
      (fs : list (string * list Byte.byte)) :
  lookup_file path (store_file path content fs) = Some content.
Proof.
  induction fs as [|[p c] fs IH]; cbn.
  - rewrite String.eqb_refl. reflexivity.
  - destruct (String.eqb p path) eqn:E; cbn; rewrite E; auto.
Qed.

Lemma write_file_run (path : string) (content : list Byte.byte) (w : world) :
  write_file path content w
  = if writable w path
    then (Ok tt, stored w path content)
    else (Raise (PermissionError path), w).
Proof. reflexivity. Qed.

Lemma write_file_printed (path : string) (content : list Byte.byte)
      (w : world) (out : string) :
  write_file path content (printed w out)
  = if writable w path
    then (Ok tt, printed (stored w path content) out)
    else (Raise (PermissionError path), printed w out).
Proof. reflexivity. Qed.

Lemma getsize_stored (path : string) (content : list Byte.byte)
      (w : world) (out : string) :
  getsize path (printed (stored w path content) out)
  = (Ok (Z.of_nat (List.length content)), printed (stored w path content) out).
Proof.
  unfold getsize. cbn [files printed stored]. rewrite lookup_store.
  reflexivity.
Qed.

(** ** ReportLab variant *)

Lemma clean_build_story_ok (w : world) (due : datetime) :
  add (reading2 w) (timedelta_days 30) = Ok due ->
  exists story,
    Clean.build_story w = (Ok story, tick (tick w)) /\
    ReportLab.story_text story
    = clean_text (strftime_dmY (reading1 w)) (strftime_dmY due) /\
    story_content story
    = clean_content (strftime_dmY (reading1 w)) (strftime_dmY due) /\
    story_tables story = [Clean.data; Clean.totals_data].
Proof.
  unfold reading1, reading2. intros H.
  unfold Clean.build_story, bind, now, lift, ret. cbn [clock ticks].
  rewrite H.
  pose proof (strip_tags_tag_free _ (tag_free_strftime (clock w (ticks w)))) as T1.
  pose proof (strip_tags_tag_free _ (tag_free_strftime due)) as T2.
  unfold ReportLab.strip_tags in T1, T2.
  set (d1 := strftime_dmY (clock w (ticks w))) in *.
  set (d2 := strftime_dmY due) in *.
  clearbody d1 d2.
  eexists. split; [reflexivity|].
  split; [|split].
  - cbn. rewrite T1, T2. reflexivity.
  - cbn. rewrite T1, T2. reflexivity.
  - reflexivity.
Qed.

Lemma clean_build_story_raise (w : world) (e : exn) :
  add (reading2 w) (timedelta_days 30) = Raise e ->
  Clean.build_story w = (Raise e, tick (tick w)).
Proof.
  unfold reading2. intros H.
  unfold Clean.build_story, bind, now, lift, ret. cbn [clock ticks].
  rewrite H. reflexivity.
Qed.

Lemma clean_build_story_printed (w : world) (out : string) :
  Clean.build_story (printed w out)
  = (fst (Clean.build_story w), printed (snd (Clean.build_story w)) out).
Proof.
  unfold Clean.build_story, bind, now, lift, ret, printed.
  cbn [clock ticks writable files stdout reportlab_encode fpdf_encode].
  destruct (add _ _); reflexivity.
Qed.

Lemma clean_build_story_world (w : world) :
  snd (Clean.build_story w) = tick (tick w).
Proof.
  destruct (add (reading2 w) (timedelta_days 30)) as [due | e] eqn:E.
  - destruct (clean_build_story_ok w due E) as (story & -> & _). reflexivity.
  - rewrite (clean_build_story_raise w e E). reflexivity.
Qed.

(** Every outcome of [create_clean_french_invoice]. *)
Lemma clean_create_run (w : world) :
  Clean.create_clean_french_invoice w =
  match fst (Clean.build_story w) with
  | Raise e => (Raise e, tick (tick w))
  | Ok story =>
      match reportlab_encode w (ReportLab.mk_doc Clean.filename "A4") story with
      | Raise e => (Raise e, tick (tick w))
      | Ok bytes =>
          if writable w Clean.filename
          then (Ok Clean.filename, stored (tick (tick w)) Clean.filename bytes)
          else (Raise (PermissionError Clean.filename), tick (tick w))
      end
  end.
Proof.
  unfold Clean.create_clean_french_invoice. unfold bind at 1.
  pose proof (clean_build_story_world w) as Hw.
  destruct (Clean.build_story w) as [r w1]. cbn [fst snd] in *. subst w1.
  assert (E1 : reportlab_encode (tick (tick w)) = reportlab_encode w)
    by reflexivity.
  assert (E2 : writable (tick (tick w)) = writable w) by reflexivity.
  set (W := tick (tick w)) in *. clearbody W.
  destruct r as [story | e]; [|reflexivity].
  unfold bind, Clean.build. cbn [ReportLab.doc_filename]. rewrite E1.
  destruct (reportlab_encode w _ story) as [bytes | e]; [|reflexivity].
  rewrite write_file_run, E2.
  destruct (writable w Clean.filename); reflexivity.
Qed.

(** The story [build_story] returns is the document the generator
    renders. *)
Lemma clean_renders_built (w : world) (story : list ReportLab.flowable) :
  Clean.build_story w = (Ok story, tick (tick w)) -> clean_renders w story.
Proof.
  intros H. unfold clean_renders. rewrite clean_create_run, H. reflexivity.
Qed.

(** Every outcome of the ReportLab script. *)
Lemma clean_main_run (w : world) :
  Clean.main w =
  match fst (Clean.build_story w) with
  | Raise e => (Raise e, printed (tick (tick w)) (unlines [clean_banner]))
  | Ok story =>
      match reportlab_encode w (ReportLab.mk_doc Clean.filename "A4") story with
      | Raise e => (Raise e, printed (tick (tick w)) (unlines [clean_banner]))
      | Ok bytes =>
          if writable w Clean.filename
          then (Ok tt,
                printed (stored (tick (tick w)) Clean.filename bytes)
                        (unlines (clean_banner
                                  :: report Clean.filename
                                            (Z.of_nat (List.length bytes))
                                  ++ clean_confirmation)))
          else (Raise (PermissionError Clean.filename),
                printed (tick (tick w)) (unlines [clean_banner]))
      end
  end.
Proof.
  unfold Clean.main. rewrite print_first.
  unfold bind at 1. unfold Clean.create_clean_french_invoice.
  unfold bind at 1. rewrite clean_build_story_printed.
  rewrite clean_build_story_world.
  assert (E1 : reportlab_encode (tick (tick w)) = reportlab_encode w)
    by reflexivity.
  assert (E2 : writable (tick (tick w)) = writable w) by reflexivity.
  set (W := tick (tick w)) in *. clearbody W.
  destruct (fst (Clean.build_story w)) as [story | e]; cbn [fst snd];
    [|reflexivity].
  unfold bind at 1. unfold Clean.build.
  cbn [reportlab_encode printed ReportLab.doc_filename]. rewrite E1.
  destruct (reportlab_encode w _ story) as [bytes | e]; [|reflexivity].
  rewrite write_file_printed, E2.
  destruct (writable w Clean.filename); [|reflexivity].
  unfold ret.
  unfold bind at 1. rewrite getsize_stored.
  repeat (rewrite print_next; cbn [app]).
  unfold print. cbn [clock ticks writable files stdout reportlab_encode
                     fpdf_encode printed].
  rewrite string_app_assoc, unlines_snoc. reflexivity.
Qed.

(** ** FPDF variant *)

Lemma service_rows_fold (svcs : list French.service) (pdf : Fpdf.FPDF)
      (t : num) :
  fold_left French.service_row svcs (pdf, t)
  = (Fpdf.mk_fpdf (Fpdf.page pdf) (Fpdf.ops pdf ++ flat_map row_ops svcs),
     fold_left (fun acc s => num_add acc (Float (total_of s))) svcs t).
Proof.
  revert pdf t. induction svcs as [|s svcs IH]; intros pdf t.
  - cbn. rewrite app_nil_r. destruct pdf; reflexivity.
  - cbn [fold_left flat_map]. destruct s as [[[desc qty] unit_price] total].
    cbn [French.service_row]. rewrite IH.
    cbn [Fpdf.cell Fpdf.emit Fpdf.page Fpdf.ops row_ops total_of snd].
    rewrite <- !app_assoc. reflexivity.
Qed.

Lemma fpdf_text_app (p : Z) (a b : list Fpdf.op) :
  Fpdf.text (Fpdf.mk_fpdf p (a ++ b))
  = (Fpdf.text (Fpdf.mk_fpdf p a) ++ flat_map Fpdf.op_text b)%list.
Proof. unfold Fpdf.text. cbn [Fpdf.ops]. apply flat_map_app. Qed.

Lemma flat_map_row_ops (svcs : list French.service) :
  flat_map Fpdf.op_text (flat_map row_ops svcs) = flat_map row_text svcs.
Proof.
  induction svcs as [|s svcs IH]; [reflexivity|].
  cbn [flat_map]. rewrite flat_map_app, IH. reflexivity.
Qed.

Lemma text_cell (pdf : Fpdf.FPDF) (w h : Z) (txt : string) (b l : Z)
      (a : string) :
  Fpdf.text (Fpdf.cell pdf w h txt b l a) = (Fpdf.text pdf ++ [txt])%list.
Proof. unfold Fpdf.text, Fpdf.cell, Fpdf.emit. cbn [Fpdf.ops]. apply flat_map_app. Qed.

Lemma text_set_font (pdf : Fpdf.FPDF) (f st : string) (sz : Z) :
  Fpdf.text (Fpdf.set_font pdf f st sz) = Fpdf.text pdf.
Proof.
  unfold Fpdf.text, Fpdf.set_font, Fpdf.emit. cbn [Fpdf.ops].
  rewrite flat_map_app. apply app_nil_r.
Qed.

Lemma text_set_y (pdf : Fpdf.FPDF) (y : Z) :
  Fpdf.text (Fpdf.set_y pdf y) = Fpdf.text pdf.
Proof.
  unfold Fpdf.text, Fpdf.set_y, Fpdf.emit. cbn [Fpdf.ops].
  rewrite flat_map_app. apply app_nil_r.
Qed.

Lemma text_ln (pdf : Fpdf.FPDF) (h : Z) :
  Fpdf.text (Fpdf.ln pdf h) = Fpdf.text pdf.
Proof.
  unfold Fpdf.text, Fpdf.ln, Fpdf.emit. cbn [Fpdf.ops].
  rewrite flat_map_app. apply app_nil_r.
Qed.

Lemma close_text (pdf : Fpdf.FPDF) :
  Fpdf.page pdf <> 0 ->
  Fpdf.text (French.close pdf)
  = (Fpdf.text pdf ++ [("Page " ++ str_of_Z (Fpdf.page pdf))%string])%list.
Proof.
  intros Hp. unfold French.close.
  destruct (Z.eqb_spec (Fpdf.page pdf) 0) as [E | _]; [contradiction|].
  unfold French.footer.
  rewrite text_cell, text_set_font, text_set_y. reflexivity.
Qed.

Lemma french_generate_with_ok (svcs : list French.service) (w : world)
      (due : datetime) :
  add (reading2 w) (timedelta_days 30) = Ok due ->
  exists pdf,
    French.generate_with svcs w = (Ok pdf, tick (tick w)) /\
    Fpdf.text pdf
    = (text_head (strftime_dmY (reading1 w)) (strftime_dmY due)
       ++ flat_map row_text svcs ++ totals_block (sum_totals svcs)
       ++ text_tail legal1_plain)%list /\
    Fpdf.text (French.close pdf) = (Fpdf.text pdf ++ ["Page 1"])%list.
Proof.
  unfold reading1, reading2. intros H.
  unfold French.generate_with, bind, now, lift, ret. cbn [clock ticks].
  rewrite H.
  set (d1 := strftime_dmY (clock w (ticks w))).
  set (d2 := strftime_dmY due).
  clearbody d1 d2.
  rewrite service_rows_fold. fold (sum_totals svcs).
  set (ht := sum_totals svcs). clearbody ht.
  eexists. split; [reflexivity|]. split.
  - repeat first [rewrite text_cell | rewrite text_set_font
                  | rewrite text_ln | rewrite text_set_y].
    rewrite fpdf_text_app, flat_map_row_ops.
    rewrite <- !app_assoc. reflexivity.
  - rewrite close_text; [reflexivity | discriminate].
Qed.

Lemma french_generate_with_raise (svcs : list French.service) (w : world)
      (e : exn) :
  add (reading2 w) (timedelta_days 30) = Raise e ->
  French.generate_with svcs w = (Raise e, tick (tick w)).
Proof.
  unfold reading2. intros H.
  unfold French.generate_with, bind, now, lift, ret. cbn [clock ticks].
  rewrite H. reflexivity.
Qed.

Lemma french_generate_with_world (svcs : list French.service) (w : world) :
  snd (French.generate_with svcs w) = tick (tick w).
Proof.
  destruct (add (reading2 w) (timedelta_days 30)) as [due | e] eqn:E.
  - destruct (french_generate_with_ok svcs w due E) as (pdf & -> & _).
    reflexivity.
  - rewrite (french_generate_with_raise svcs w e E). reflexivity.
Qed.

Lemma french_generate_with_printed (svcs : list French.service) (w : world)
      (out : string) :
  French.generate_with svcs (printed w out)
  = (fst (French.generate_with svcs w),
     printed (snd (French.generate_with svcs w)) out).
Proof.
  unfold French.generate_with, bind, now, lift, ret, printed.
  cbn [clock ticks writable files stdout reportlab_encode fpdf_encode].
  destruct (add _ _); [|reflexivity].
  destruct (fold_left _ _ _). reflexivity.
Qed.

(** The hardcoded line items give the rows and totals of the other
    variant. *)
Lemma french_rows_text : flat_map row_text French.services = text_rows.
Proof. vm_compute. reflexivity. Qed.

Lemma french_totals_text :
  totals_block (sum_totals French.services)
  = text_totals "TOTAL TTC:" "2220.00 EUR".
Proof. vm_compute. reflexivity. Qed.

Lemma french_generate_ok (w : world) (due : datetime) :
  add (reading2 w) (timedelta_days 30) = Ok due ->
  exists pdf,
    French.generate_french_invoice w = (Ok pdf, tick (tick w)) /\
    Fpdf.text pdf
    = french_text (strftime_dmY (reading1 w)) (strftime_dmY due) /\
    Fpdf.text (French.close pdf) = (Fpdf.text pdf ++ ["Page 1"])%list.
Proof.
  intros H.
  destruct (french_generate_with_ok French.services w due H)
    as (pdf & Hrun & Htext & Hclose).
  exists pdf. split; [exact Hrun|]. split; [|exact Hclose].
  rewrite Htext, french_rows_text, french_totals_text. reflexivity.
Qed.

(** [total_ht] reads nothing of a line item but its total. *)
Lemma sum_totals_map (svcs : list French.service) :
  sum_totals svcs
  = fold_left (fun acc t => num_add acc (Float t)) (map total_of svcs) (Int 0).
Proof.
  unfold sum_totals. generalize (Int 0).
  induction svcs as [|s svcs IH]; intros acc; [reflexivity|].
  cbn [fold_left map]. apply IH.
Qed.

Lemma sum_totals_ext (svcs svcs' : list French.service) :
  map total_of svcs' = map total_of svcs -> sum_totals svcs' = sum_totals svcs.
Proof. intros H. rewrite !sum_totals_map, H. reflexivity. Qed.

(** Every outcome of the FPDF script. *)
Lemma french_main_run (w : world) :
  French.main w =
  match fst (French.generate_french_invoice w) with
  | Raise e => (Raise e, printed (tick (tick w)) (unlines [french_banner]))
  | Ok pdf =>
      match fpdf_encode w (French.close pdf) with
      | Raise e => (Raise e, printed (tick (tick w)) (unlines [french_banner]))
      | Ok bytes =>
          if writable w french_file
          then (Ok tt,
                printed (stored (tick (tick w)) french_file bytes)
                        (unlines (french_banner
                                  :: report french_file
                                            (Z.of_nat (List.length bytes)))))
          else (Raise (PermissionError french_file),
                printed (tick (tick w)) (unlines [french_banner]))
      end
  end.
Proof.
  unfold French.main. rewrite print_first.
  unfold bind at 1. unfold French.generate_french_invoice.
  rewrite french_generate_with_printed, french_generate_with_world.
  assert (E1 : fpdf_encode (tick (tick w)) = fpdf_encode w) by reflexivity.
  assert (E2 : writable (tick (tick w)) = writable w) by reflexivity.
  set (W := tick (tick w)) in *. clearbody W.
  destruct (fst (French.generate_with French.services w)) as [pdf | e];
    cbn [fst snd]; [|reflexivity].
  unfold bind at 1. unfold French.output.
  cbn [fpdf_encode printed]. rewrite E1.
  destruct (fpdf_encode w (French.close pdf)) as [bytes | e]; [|reflexivity].
  rewrite write_file_printed, E2.
  change "facture_test_invoicecomply.pdf" with french_file.
  destruct (writable w french_file); [|reflexivity].
  rewrite print_next. cbn [app].
  unfold bind at 1. rewrite getsize_stored.
  repeat (rewrite print_next; cbn [app]).
  unfold print. cbn [clock ticks writable files stdout reportlab_encode
                     fpdf_encode printed].
  rewrite string_app_assoc, unlines_snoc. reflexivity.
Qed.

End Runs.

(* ================================================================== *)
(** * The two dates of a run *)

Section Dates.

Lemma same_day_fields (a b : datetime) :
  same_day a b = true ->
  year a = year b /\ month a = month b /\ day a = day b.
Proof.
  unfold same_day. intros H.
  apply andb_prop in H. destruct H as [H Hd].
  apply andb_prop in H. destruct H as [Hy Hm].
  repeat split; apply Z.eqb_eq; assumption.
Qed.

Lemma same_day_toordinal (a b : datetime) :
  same_day a b = true -> toordinal a = toordinal b.
Proof.
  intros H. destruct (same_day_fields a b H) as (Hy & Hm & Hd).
  unfold toordinal. rewrite Hy, Hm, Hd. reflexivity.
Qed.


Lemma in_clean_text_dates (d1 d2 : string) :
  In ("Date: " ++ d1) (clean_text d1 d2) /\
  In ("Date d'échéance: " ++ d2) (clean_text d1 d2).
Proof.
  unfold clean_text, text_head. cbn [app In].
  split; [do 8 right | do 9 right]; left; reflexivity.
Qed.

Lemma in_french_text_dates (d1 d2 : string) :
  In ("Date: " ++ d1) (french_text d1 d2) /\
  In ("Date d'échéance: " ++ d2) (french_text d1 d2).
Proof.
  unfold french_text, text_head. cbn [app In].
  split; [do 8 right | do 9 right]; left; reflexivity.
Qed.

End Dates.

(* ================================================================== *)
(** * The properties of the specification *)

Section Occurrences.

Lemma occurs_here (lit run : string) (runs : list string) :
  contains lit run = true -> occurs_in (run :: runs) lit.
Proof.
  intros H. destruct (contains_occurs lit run H) as (b & a & E).
  exists run, b, a. split; [left; reflexivity | exact E].
Qed.

Lemma occurs_later (lit run : string) (runs : list string) :
  occurs_in runs lit -> occurs_in (run :: runs) lit.
Proof.
  intros (r & b & a & Hin & E). exists r, b, a. split; [right; exact Hin | exact E].
Qed.

Lemma occurs_app_l (lit : string) (runs more : list string) :
  occurs_in runs lit -> occurs_in (runs ++ more) lit.
Proof.
  intros (r & b & a & Hin & E). exists r, b, a.
  split; [apply in_or_app; left; exact Hin | exact E].
Qed.

End Occurrences.

Ltac find_run :=
  repeat first [ apply occurs_here; vm_compute; reflexivity
               | apply occurs_later ].

Ltac all_literals :=
  unfold required_literals;
  repeat (apply Forall_cons; [find_run|]); apply Forall_nil.

(** C1. For the hardcoded data both variants show a subtotal of
    1850.00, a tax of 370.00 and a grand total of 2220.00.  The
    ReportLab generator renders a story in which the runs that follow
    the three labels, as drawn, are [1850.00 EUR], [370.00 EUR] and
    [<b>2220.00 EUR</b>] (the cells of a table are drawn as written, so
    the grand total and its label keep the tags written in the script)
    and read 1850.00, 370.00 and 2220.00; so do the cells with their
    tags removed.  The FPDF generator returns a document with the same
    three cells, which are the exact values of the three floats it
    computes.  The recap that either script prints when it succeeds
    shows the same three totals. *)
Theorem C1_totals (w : world) (due : datetime) :
  due_date w = Ok due ->
  (exists story,
      Clean.build_story w = (Ok story, tick (tick w)) /\
      clean_renders w story /\
      totals_drawn "<b>TOTAL TTC:</b>" "<b>2220.00 EUR</b>"
                   (ReportLab.story_text story) /\
      totals_shown (story_content story)) /\
  (exists pdf,
      French.generate_french_invoice w = (Ok pdf, tick (tick w)) /\
      totals_drawn "TOTAL TTC:" "2220.00 EUR" (Fpdf.text pdf) /\
      totals_shown (Fpdf.text pdf)) /\
  (sum_totals French.services = Float (PyFloat.literal 185000 2) /\
   tva_amount_of (sum_totals French.services) = Float (PyFloat.literal 37000 2) /\
   total_ttc_of (sum_totals French.services) = Float (PyFloat.literal 222000 2)) /\
  (forall w', Clean.main w = (Ok tt, w') ->
      exists out, stdout w' = stdout w ++ out /\
                  summary_shows_totals (out_lines out)) /\
  (forall w', French.main w = (Ok tt, w') ->
      exists out, stdout w' = stdout w ++ out /\
                  summary_shows_totals (out_lines out)).
Proof.
  intros Hdue. unfold due_date in Hdue.
  destruct (clean_build_story_ok w due Hdue) as (story & Hs & Hx & Hc & _).
  destruct (french_generate_ok w due Hdue) as (pdf & Hp & Ht & _).
  split; [|split; [|split; [|split]]].
  - exists story. split; [exact Hs|].
    split; [exact (clean_renders_built w story Hs)|].
    rewrite Hx, Hc. split.
    + unfold totals_drawn. repeat split; reflexivity.
    + repeat split; reflexivity.
  - exists pdf. split; [exact Hp|]. rewrite Ht. split.
    + unfold totals_drawn. repeat split; reflexivity.
    + repeat split; reflexivity.
  - repeat split; vm_compute; reflexivity.
  - intros w' Hm. rewrite clean_main_run, Hs in Hm. cbn [fst] in Hm.
    destruct (reportlab_encode w _ story) as [bytes | e]; [|discriminate].
    destruct (writable w Clean.filename); [|discriminate].
    injection Hm as <-.
    exists (unlines (clean_banner
                     :: report Clean.filename (Z.of_nat (List.length bytes))
                     ++ clean_confirmation)).
    split; [reflexivity|].
    rewrite out_lines_unlines.
    + unfold summary_shows_totals, report, recap. cbn [In app].
      repeat split; auto 20.
    + constructor; [reflexivity|]. apply Forall_app. split.
      * apply report_one_line. reflexivity.
      * repeat constructor.
  - intros w' Hm. rewrite french_main_run, Hp in Hm. cbn [fst] in Hm.
    destruct (fpdf_encode w _) as [bytes | e]; [|discriminate].
    destruct (writable w french_file); [|discriminate].
    injection Hm as <-.
    exists (unlines (french_banner
                     :: report french_file (Z.of_nat (List.length bytes)))).
    split; [reflexivity|].
    rewrite out_lines_unlines.
    + unfold summary_shows_totals, report, recap. cbn [In app].
      repeat split; auto 20.
    + constructor; [reflexivity|]. apply report_one_line. reflexivity.
Qed.

Lemma C1_totals_witness :
  due_date (sample_world noon_jan15 noon_jan15)
  = Ok (mk_datetime 2024 2 14 12 0 0 0) /\
  exists story,
    Clean.build_story (sample_world noon_jan15 noon_jan15)
    = (Ok story, tick (tick (sample_world noon_jan15 noon_jan15))) /\
    clean_renders (sample_world noon_jan15 noon_jan15) story /\
    totals_drawn "<b>TOTAL TTC:</b>" "<b>2220.00 EUR</b>"
                 (ReportLab.story_text story) /\
    totals_shown (story_content story).
Proof.
  split; [reflexivity|].
  exact (proj1 (C1_totals (sample_world noon_jan15 noon_jan15)
                          (mk_datetime 2024 2 14 12 0 0 0) eq_refl)).
Defined.

(** C2. Each of the ten literals the checker looks for occurs inside a
    text run of the document of either variant: of the story the
    ReportLab generator renders (both as drawn and with the tags of the
    script removed) and of the FPDF document, as the generator returns
    it and once closed for output. *)
Theorem C2_required_literals (w : world) (due : datetime) :
  due_date w = Ok due ->
  (exists story,
      Clean.build_story w = (Ok story, tick (tick w)) /\
      clean_renders w story /\
      Forall (occurs_in (ReportLab.story_text story)) required_literals /\
      Forall (occurs_in (story_content story)) required_literals) /\
  (exists pdf,
      French.generate_french_invoice w = (Ok pdf, tick (tick w)) /\
      Forall (occurs_in (Fpdf.text pdf)) required_literals /\
      Forall (occurs_in (Fpdf.text (French.close pdf))) required_literals).
Proof.
  intros Hdue. unfold due_date in Hdue.
  destruct (clean_build_story_ok w due Hdue) as (story & Hs & Ht & Hc & _).
  destruct (french_generate_ok w due Hdue) as (pdf & Hp & Hpt & Hclose).
  pose proof (clean_renders_built w story Hs) as Hr.
  set (d1 := strftime_dmY (reading1 w)) in *.
  set (d2 := strftime_dmY due) in *. clearbody d1 d2.
  assert (Hlits : Forall (occurs_in (french_text d1 d2)) required_literals).
  { unfold french_text, text_head, text_rows, text_totals, text_tail.
    cbn [app]. all_literals. }
  split.
  - exists story. split; [exact Hs|]. split; [exact Hr|].
    rewrite Ht, Hc. split.
    + unfold clean_text, text_head, text_rows, text_totals, text_tail.
      cbn [app]. all_literals.
    + unfold clean_content, text_head, text_rows, text_totals, text_tail.
      cbn [app]. all_literals.
  - exists pdf. split; [exact Hp|]. rewrite Hclose, Hpt.
    split; [exact Hlits|].
    apply Forall_forall. intros lit Hlit. apply occurs_app_l. revert lit Hlit.
    apply Forall_forall. exact Hlits.
Qed.

Lemma C2_required_literals_witness :
  due_date (sample_world noon_jan15 noon_jan15)
  = Ok (mk_datetime 2024 2 14 12 0 0 0) /\
  exists story,
    Clean.build_story (sample_world noon_jan15 noon_jan15)
    = (Ok story, tick (tick (sample_world noon_jan15 noon_jan15))) /\
    clean_renders (sample_world noon_jan15 noon_jan15) story /\
    Forall (occurs_in (ReportLab.story_text story)) required_literals /\
    Forall (occurs_in (story_content story)) required_literals.
Proof.
  split; [reflexivity|].
  exact (proj1 (C2_required_literals (sample_world noon_jan15 noon_jan15)
                                     (mk_datetime 2024 2 14 12 0 0 0) eq_refl)).
Defined.

(** C3. The amounts a reader finds in the document of either variant
    (the line totals in the last column of the table, then the runs
    that follow the three labels) satisfy: grand total = subtotal x
    (1 + 20%), tax = subtotal x 20%, subtotal = sum of the line totals.
    They are read from the story the ReportLab generator renders and
    from the document the FPDF generator returns, whose rows and totals
    block are those of its line items and of the sum of their stored
    totals; the floats of the FPDF variant are exact and are also what
    a single float multiplication by [1 + 0.20] gives. *)
Theorem C3_invoice_invariant (w : world) (due : datetime) :
  due_date w = Ok due ->
  let a := mk_amounts [100000; 45000; 40000] 185000 37000 222000 in
  (exists story,
      Clean.build_story w = (Ok story, tick (tick w)) /\
      clean_renders w story /\
      amounts_of_runs "<b>TOTAL TTC:</b>" (ReportLab.story_text story)
      = Some a) /\
  (exists pdf,
      French.generate_french_invoice w = (Ok pdf, tick (tick w)) /\
      amounts_of_runs "TOTAL TTC:" (Fpdf.text pdf) = Some a /\
      Fpdf.text pdf
      = (text_head (strftime_dmY (reading1 w)) (strftime_dmY due)
         ++ flat_map row_text French.services
         ++ totals_block (sum_totals French.services)
         ++ text_tail legal1_plain)%list) /\
  clean_amounts = Some a /\
  french_amounts French.services = Some a /\
  invoice_invariant a /\
  tax a * 100 = subtotal a * 20 /\
  French.tva_rate = Float (PyFloat.literal 20 2) /\
  to_float (total_ttc_of (sum_totals French.services))
  = PyFloat.mul (to_float (sum_totals French.services))
                (PyFloat.add (PyFloat.of_int 1) (to_float French.tva_rate)).
Proof.
  intros Hdue. cbv zeta. unfold due_date in Hdue.
  destruct (clean_build_story_ok w due Hdue) as (story & Hs & Hx & _ & _).
  destruct (french_generate_ok w due Hdue) as (pdf & Hp & Ht & _).
  destruct (french_generate_with_ok French.services w due Hdue)
    as (pdf' & Hp' & Ht' & _).
  assert (pdf' = pdf) as -> by (unfold French.generate_french_invoice in Hp;
                                congruence).
  split; [|split].
  - exists story. split; [exact Hs|].
    split; [exact (clean_renders_built w story Hs)|].
    rewrite Hx. reflexivity.
  - exists pdf. split; [exact Hp|]. split; [|exact Ht'].
    rewrite Ht. reflexivity.
  - unfold invoice_invariant.
    repeat split; vm_compute; reflexivity.
Qed.

Lemma C3_invoice_invariant_witness :
  due_date (sample_world noon_jan15 noon_jan15)
  = Ok (mk_datetime 2024 2 14 12 0 0 0) /\
  exists pdf,
    French.generate_french_invoice (sample_world noon_jan15 noon_jan15)
    = (Ok pdf, tick (tick (sample_world noon_jan15 noon_jan15))) /\
    amounts_of_runs "TOTAL TTC:" (Fpdf.text pdf)
    = Some (mk_amounts [100000; 45000; 40000] 185000 37000 222000) /\
    Fpdf.text pdf
    = (text_head (strftime_dmY (reading1 (sample_world noon_jan15 noon_jan15)))
                 (strftime_dmY (mk_datetime 2024 2 14 12 0 0 0))
       ++ flat_map row_text French.services
       ++ totals_block (sum_totals French.services)
       ++ text_tail legal1_plain)%list.
Proof.
  split; [reflexivity|].
  exact (proj1 (proj2 (C3_invoice_invariant
                         (sample_world noon_jan15 noon_jan15)
                         (mk_datetime 2024 2 14 12 0 0 0) eq_refl))).
Defined.

(** C4. For every line item of either variant the line total is the
    product of the quantity and the unit price: on the hundredths read
    from the three rows of the ReportLab table, and for the FPDF tuples
    both on exact values and as a float product, whose two-decimal text
    is that of the stored total. *)
Theorem C4_line_totals :
  Forall (fun row =>
            exists q u t,
              int_of_text (nth 1 row "") = Some q /\
              cents_of_text (nth 2 row "") = Some u /\
              cents_of_text (nth 3 row "") = Some t /\
              t = q * u)
         (tl Clean.data) /\
  Forall (fun s : French.service =>
            let '(_, qty, unit_price, total) := s in
            exists u t,
              PyFloat.exact_cents unit_price = Some u /\
              PyFloat.exact_cents total = Some t /\
              t = qty * u /\
              num_mul (Int qty) (Float unit_price) = Float total /\
              fmt2 (num_mul (Int qty) (Float unit_price)) = fmt2 (Float total))
         French.services.
Proof.
  split.
  - unfold Clean.data. cbn [tl].
    repeat (apply Forall_cons;
            [do 3 eexists; repeat split; vm_compute; reflexivity|]).
    apply Forall_nil.
  - unfold French.services.
    repeat (apply Forall_cons;
            [do 2 eexists; repeat split; vm_compute; reflexivity|]).
    apply Forall_nil.
Qed.

(** C10. No line total is computed from quantity x unit price.  The
    tables of the ReportLab story are the two literal tables whatever
    the run.  The FPDF variant, run on any list of line items, draws in
    each row the stored total and in the totals block the amounts
    derived from the sum of the stored totals alone: a second list with
    the same stored totals gives the same block, whatever its
    quantities and unit prices; for the hardcoded list, and for it with
    quantities and unit prices altered, the block reads 1850.00, 370.00,
    2220.00. *)
Theorem C10_totals_ignore_quantities
        (svcs svcs' : list French.service) (w : world) (due : datetime) :
  due_date w = Ok due ->
  map total_of svcs' = map total_of svcs ->
  (exists story,
      Clean.build_story w = (Ok story, tick (tick w)) /\
      story_tables story = [Clean.data; Clean.totals_data]) /\
  (exists pdf pdf',
      French.generate_with svcs w = (Ok pdf, tick (tick w)) /\
      French.generate_with svcs' w = (Ok pdf', tick (tick w)) /\
      Fpdf.text pdf
      = (text_head (strftime_dmY (reading1 w)) (strftime_dmY due)
         ++ flat_map row_text svcs ++ totals_block (sum_totals svcs)
         ++ text_tail legal1_plain)%list /\
      Fpdf.text pdf'
      = (text_head (strftime_dmY (reading1 w)) (strftime_dmY due)
         ++ flat_map row_text svcs' ++ totals_block (sum_totals svcs)
         ++ text_tail legal1_plain)%list) /\
  (forall desc qty unit_price total,
      row_text (desc, qty, unit_price, total)
      = [desc; str_of_Z qty; fmt2 (Float unit_price) ++ " EUR";
         fmt2 (Float total) ++ " EUR"]) /\
  totals_block (sum_totals French.services)
  = text_totals "TOTAL TTC:" "2220.00 EUR" /\
  totals_block (sum_totals altered_services)
  = text_totals "TOTAL TTC:" "2220.00 EUR".
Proof.
  intros Hdue Htot. unfold due_date in Hdue.
  destruct (clean_build_story_ok w due Hdue) as (story & Hs & _ & _ & Htab).
  destruct (french_generate_with_ok svcs w due Hdue) as (pdf & Hp & Ht & _).
  destruct (french_generate_with_ok svcs' w due Hdue) as (pdf' & Hp' & Ht' & _).
  rewrite (sum_totals_ext _ _ Htot) in Ht'.
  split; [exists story; auto|].
  split; [exists pdf, pdf'; auto|].
  split; [reflexivity|].
  split; vm_compute; reflexivity.
Qed.

Lemma C10_totals_ignore_quantities_witness :
  due_date (sample_world noon_jan15 noon_jan15)
  = Ok (mk_datetime 2024 2 14 12 0 0 0) /\
  map total_of altered_services = map total_of French.services /\
  exists pdf pdf',
    French.generate_with French.services (sample_world noon_jan15 noon_jan15)
    = (Ok pdf, tick (tick (sample_world noon_jan15 noon_jan15))) /\
    French.generate_with altered_services (sample_world noon_jan15 noon_jan15)
    = (Ok pdf', tick (tick (sample_world noon_jan15 noon_jan15))) /\
    Fpdf.text pdf
    = (text_head (strftime_dmY (reading1 (sample_world noon_jan15 noon_jan15)))
                 (strftime_dmY (mk_datetime 2024 2 14 12 0 0 0))
       ++ flat_map row_text French.services
       ++ totals_block (sum_totals French.services)
       ++ text_tail legal1_plain)%list /\
    Fpdf.text pdf'
    = (text_head (strftime_dmY (reading1 (sample_world noon_jan15 noon_jan15)))
                 (strftime_dmY (mk_datetime 2024 2 14 12 0 0 0))
       ++ flat_map row_text altered_services
       ++ totals_block (sum_totals French.services)
       ++ text_tail legal1_plain)%list.
Proof.
  split; [reflexivity|]. split; [reflexivity|].
  exact (proj1 (proj2 (C10_totals_ignore_quantities
                         French.services altered_services
                         (sample_world noon_jan15 noon_jan15)
                         (mk_datetime 2024 2 14 12 0 0 0) eq_refl eq_refl))).
Defined.



(** C5. The clock read just before midnight of 15 January 2024 and
    again just after it: both variants draw the issue date 15/01/2024
    and the due date 15/02/2024, thirty-one days later, where the issue
    date plus thirty days is 14/02/2024.  With both readings at noon of
    15 January the due date drawn is 14/02/2024. *)
Theorem C5_midnight_race :
  let w := sample_world before_midnight after_midnight in
  (exists story pdf,
      Clean.build_story w = (Ok story, tick (tick w)) /\
      French.generate_french_invoice w = (Ok pdf, tick (tick w)) /\
      In "Date: 15/01/2024" (ReportLab.story_text story) /\
      In "Date d'échéance: 15/02/2024" (ReportLab.story_text story) /\
      In "Date: 15/01/2024" (Fpdf.text pdf) /\
      In "Date d'échéance: 15/02/2024" (Fpdf.text pdf)) /\
  (exists due1,
      add before_midnight (timedelta_days 30) = Ok due1 /\
      strftime_dmY due1 = "14/02/2024" /\
      toordinal due1 = toordinal before_midnight + 30) /\
  ymd2ord 2024 2 15 = toordinal before_midnight + 31 /\
  (exists story,
      Clean.build_story (sample_world noon_jan15 noon_jan15)
      = (Ok story, tick (tick (sample_world noon_jan15 noon_jan15))) /\
      In "Date: 15/01/2024" (ReportLab.story_text story) /\
      In "Date d'échéance: 14/02/2024" (ReportLab.story_text story)).
Proof.
  cbv zeta. split; [|split; [|split]].
  - destruct (clean_build_story_ok
                (sample_world before_midnight after_midnight)
                (mk_datetime 2024 2 15 0 0 0 0) eq_refl)
      as (story & Hs & Ht & _).
    destruct (french_generate_ok
                (sample_world before_midnight after_midnight)
                (mk_datetime 2024 2 15 0 0 0 0) eq_refl)
      as (pdf & Hp & Hpt & _).
    exists story, pdf. split; [exact Hs|]. split; [exact Hp|].
    rewrite Ht, Hpt.
    split; [apply (in_clean_text_dates "15/01/2024" "15/02/2024")|].
    split; [apply (in_clean_text_dates "15/01/2024" "15/02/2024")|].
    split; [apply (in_french_text_dates "15/01/2024" "15/02/2024")|].
    apply (in_french_text_dates "15/01/2024" "15/02/2024").
  - exists (mk_datetime 2024 2 14 23 59 59 999999).
    repeat split; reflexivity.
  - reflexivity.
  - destruct (clean_build_story_ok
                (sample_world noon_jan15 noon_jan15)
                (mk_datetime 2024 2 14 12 0 0 0) eq_refl)
      as (story & Hs & Ht & _).
    exists story. split; [exact Hs|]. rewrite Ht.
    split; apply (in_clean_text_dates "15/01/2024" "14/02/2024").
Qed.

(** C6. Run on the same clock, the two variants give the same text
    (the ReportLab strings read without their tags, the FPDF text as
    [generate_french_invoice] returns it) at every position but one:
    the first line of the legal notice, "indemnité" in the ReportLab
    script, "indemnite" in the FPDF script. *)
Theorem C6_legal_text_differs (w : world) (due : datetime) :
  due_date w = Ok due ->
  exists story pdf,
    Clean.build_story w = (Ok story, tick (tick w)) /\
    French.generate_french_invoice w = (Ok pdf, tick (tick w)) /\
    (forall i, i <> 39%nat ->
               nth_error (story_content story) i = nth_error (Fpdf.text pdf) i) /\
    nth_error (story_content story) 39 = Some legal1_accented /\
    nth_error (Fpdf.text pdf) 39 = Some legal1_plain /\
    legal1_accented <> legal1_plain /\
    story_content story <> Fpdf.text pdf.
Proof.
  intros Hdue. unfold due_date in Hdue.
  destruct (clean_build_story_ok w due Hdue) as (story & Hs & _ & Hc & _).
  destruct (french_generate_ok w due Hdue) as (pdf & Hp & Hpt & _).
  exists story, pdf. split; [exact Hs|]. split; [exact Hp|].
  rewrite Hc, Hpt.
  set (d1 := strftime_dmY (reading1 w)).
  set (d2 := strftime_dmY due). clearbody d1 d2.
  assert (Hne : legal1_accented <> legal1_plain) by (vm_compute; discriminate).
  split; [|split; [reflexivity|split; [reflexivity|split; [exact Hne|]]]].
  - intros i Hi.
    do 39 (destruct i as [|i]; [reflexivity|]).
    destruct i as [|i]; [congruence|].
    do 3 (destruct i as [|i]; [reflexivity|]). reflexivity.
  - intros E. apply Hne.
    apply (f_equal (fun l => nth_error l 39)) in E.
    change (Some legal1_accented = Some legal1_plain) in E.
    congruence.
Qed.

Lemma C6_legal_text_differs_witness :
  due_date (sample_world noon_jan15 noon_jan15)
  = Ok (mk_datetime 2024 2 14 12 0 0 0) /\
  exists story pdf,
    Clean.build_story (sample_world noon_jan15 noon_jan15)
    = (Ok story, tick (tick (sample_world noon_jan15 noon_jan15))) /\
    French.generate_french_invoice (sample_world noon_jan15 noon_jan15)
    = (Ok pdf, tick (tick (sample_world noon_jan15 noon_jan15))) /\
    story_content story <> Fpdf.text pdf.
Proof.
  split; [reflexivity|].
  destruct (C6_legal_text_differs (sample_world noon_jan15 noon_jan15)
                                  (mk_datetime 2024 2 14 12 0 0 0) eq_refl)
    as (story & pdf & Hs & Hp & _ & _ & _ & _ & Hne).
  exists story, pdf. auto.
Defined.

(** C7, as worded, fails for the FPDF script: on a successful run its
    output ends with the last item of the recap, "- Conditions: 30
    jours", not with a confirmation line. *)
Lemma C7_french_ends_with_recap_item :
  ~ summary_contract French.main french_file
      (sample_world noon_jan15 noon_jan15).
Proof.
  intros H.
  pose proof (french_main_run (sample_world noon_jan15 noon_jan15)) as Hrun.
  destruct (french_generate_ok (sample_world noon_jan15 noon_jan15)
                               (mk_datetime 2024 2 14 12 0 0 0) eq_refl)
    as (pdf & Hp & _).
  rewrite Hp in Hrun. cbn [fst sample_world fpdf_encode writable] in Hrun.
  destruct (H _ Hrun) as (bytes & out & _ & Hout & _ & _ & Hend).
  cbn [stdout printed stored tick now snd sample_world] in Hout.
  cbn [append] in Hout. subst out.
  destruct Hend as (line & Hlast & _ & Hitem).
  vm_compute in Hlast.
  assert (E : line = "- Conditions: 30 jours") by congruence.
  subst line. discriminate Hitem.
Qed.

(** C7, amended.  When a script returns, the file it wrote is in the
    working directory, its content is what the library's encoder gave,
    and the output is the banner, the name of the file, the size of that
    content in bytes and the ten items of the recap; the ReportLab
    script then prints an empty line and its confirmation sentence, the
    FPDF script ends on the last item of the recap. *)
Theorem C7_summary_report (w w' : world) :
  (Clean.main w = (Ok tt, w') ->
   exists story bytes,
     fst (Clean.build_story w) = Ok story /\
     reportlab_encode w (ReportLab.mk_doc Clean.filename "A4") story = Ok bytes /\
     lookup_file Clean.filename (files w') = Some bytes /\
     stdout w'
     = stdout w
       ++ unlines (clean_banner
                   :: report Clean.filename (Z.of_nat (List.length bytes))
                   ++ clean_confirmation) /\
     last_line (unlines (clean_banner
                         :: report Clean.filename (Z.of_nat (List.length bytes))
                         ++ clean_confirmation))
     = Some "Cette facture devrait être parfaitement lisible par pdf-parse!" /\
     ends_with_confirmation
       (unlines (clean_banner
                 :: report Clean.filename (Z.of_nat (List.length bytes))
                 ++ clean_confirmation))) /\
  (French.main w = (Ok tt, w') ->
   exists pdf bytes,
     fst (French.generate_french_invoice w) = Ok pdf /\
     fpdf_encode w (French.close pdf) = Ok bytes /\
     lookup_file french_file (files w') = Some bytes /\
     stdout w'
     = stdout w
       ++ unlines (french_banner
                   :: report french_file (Z.of_nat (List.length bytes))) /\
     last_line (unlines (french_banner
                         :: report french_file (Z.of_nat (List.length bytes))))
     = Some "- Conditions: 30 jours").
Proof.
  split; intros Hm.
  - rewrite clean_main_run in Hm.
    destruct (fst (Clean.build_story w)) as [story | e]; [|discriminate].
    destruct (reportlab_encode w _ story) as [bytes | e] eqn:Eb; [|discriminate].
    destruct (writable w Clean.filename); [|discriminate].
    injection Hm as <-. exists story, bytes.
    split; [reflexivity|]. split; [exact Eb|].
    split; [cbn [files printed stored]; apply lookup_store|].
    split; [reflexivity|].
    assert (Hlast :
      last_line (unlines (clean_banner
                          :: report Clean.filename (Z.of_nat (List.length bytes))
                          ++ clean_confirmation))
      = Some "Cette facture devrait être parfaitement lisible par pdf-parse!").
    { apply (last_line_unlines
               (clean_banner
                :: report Clean.filename (Z.of_nat (List.length bytes))
                ++ [""])).
      change (Forall (fun l => one_line l = true)
                ([clean_banner]
                 ++ report Clean.filename (Z.of_nat (List.length bytes))
                 ++ clean_confirmation)).
      apply Forall_app. split; [repeat constructor|].
      apply Forall_app. split.
      - apply report_one_line. reflexivity.
      - repeat constructor. }
    split; [exact Hlast|].
    eexists. split; [exact Hlast|]. split; [discriminate | reflexivity].
  - rewrite french_main_run in Hm.
    destruct (fst (French.generate_french_invoice w)) as [pdf | e];
      [|discriminate].
    destruct (fpdf_encode w (French.close pdf)) as [bytes | e] eqn:Eb;
      [|discriminate].
    destruct (writable w french_file); [|discriminate].
    injection Hm as <-. exists pdf, bytes.
    split; [reflexivity|]. split; [exact Eb|].
    split; [cbn [files printed stored]; apply lookup_store|].
    split; [reflexivity|].
    apply (last_line_unlines
             (french_banner
              :: removelast (report french_file
                                    (Z.of_nat (List.length bytes))))).
    constructor; [reflexivity|].
    unfold report, recap. cbn [app removelast].
    repeat constructor. apply one_line_size.
Qed.

Lemma C7_summary_report_witness :
  exists w' bytes,
    Clean.main (sample_world noon_jan15 noon_jan15) = (Ok tt, w') /\
    lookup_file Clean.filename (files w') = Some bytes /\
    stdout w'
    = stdout (sample_world noon_jan15 noon_jan15)
      ++ unlines (clean_banner
                  :: report Clean.filename (Z.of_nat (List.length bytes))
                  ++ clean_confirmation).
Proof.
  exists (snd (Clean.main (sample_world noon_jan15 noon_jan15))).
  assert (H : Clean.main (sample_world noon_jan15 noon_jan15)
              = (Ok tt, snd (Clean.main (sample_world noon_jan15 noon_jan15))))
    by (vm_compute; reflexivity).
  destruct (proj1 (C7_summary_report _ _) H)
    as (story & bytes & _ & _ & Hf & Hout & _).
  exists bytes. split; [exact H|]. split; [exact Hf | exact Hout].
Defined.

(** C8. Neither script catches anything.  The date addition, the
    library's encoder and the write of the file are the only steps that
    can raise; whichever raises, the generator and [main] end with that
    very exception and nothing but the banner has been printed.  When
    the date addition succeeds the invoice content is built; when the
    encoder and the write succeed too, the run returns. *)
Theorem C8_errors_propagate (w : world) :
  let doc := ReportLab.mk_doc Clean.filename "A4" in
  (forall e,
      due_date w = Raise e ->
      fst (Clean.create_clean_french_invoice w) = Raise e /\
      fst (Clean.main w) = Raise e /\
      fst (French.generate_french_invoice w) = Raise e /\
      fst (French.main w) = Raise e) /\
  (forall due,
      due_date w = Ok due ->
      exists story pdf,
        fst (Clean.build_story w) = Ok story /\
        fst (French.generate_french_invoice w) = Ok pdf /\
        (forall e,
            reportlab_encode w doc story = Raise e ->
            fst (Clean.create_clean_french_invoice w) = Raise e /\
            fst (Clean.main w) = Raise e) /\
        (forall e,
            fpdf_encode w (French.close pdf) = Raise e ->
            fst (French.main w) = Raise e) /\
        (forall bytes,
            reportlab_encode w doc story = Ok bytes ->
            writable w Clean.filename = false ->
            fst (Clean.create_clean_french_invoice w)
            = Raise (PermissionError Clean.filename) /\
            fst (Clean.main w) = Raise (PermissionError Clean.filename)) /\
        (forall bytes,
            fpdf_encode w (French.close pdf) = Ok bytes ->
            writable w french_file = false ->
            fst (French.main w) = Raise (PermissionError french_file)) /\
        (forall bytes,
            reportlab_encode w doc story = Ok bytes ->
            writable w Clean.filename = true ->
            fst (Clean.create_clean_french_invoice w) = Ok Clean.filename /\
            fst (Clean.main w) = Ok tt) /\
        (forall bytes,
            fpdf_encode w (French.close pdf) = Ok bytes ->
            writable w french_file = true ->
            fst (French.main w) = Ok tt)) /\
  (forall e w',
      Clean.main w = (Raise e, w') ->
      stdout w' = stdout w ++ unlines [clean_banner]) /\
  (forall e w',
      French.main w = (Raise e, w') ->
      stdout w' = stdout w ++ unlines [french_banner]).
Proof.
  cbv zeta. unfold due_date.
  split; [|split; [|split]].
  - intros e He.
    rewrite clean_create_run, clean_main_run, french_main_run.
    unfold French.generate_french_invoice.
    rewrite (clean_build_story_raise w e He).
    rewrite (french_generate_with_raise French.services w e He).
    repeat split; reflexivity.
  - intros due Hdue.
    destruct (clean_build_story_ok w due Hdue) as (story & Hs & _).
    destruct (french_generate_ok w due Hdue) as (pdf & Hp & _).
    exists story, pdf.
    rewrite clean_create_run, clean_main_run, french_main_run, Hs, Hp.
    cbn [fst].
    split; [reflexivity|]. split; [reflexivity|].
    repeat split; intros;
      repeat match goal with
             | H : _ = _ |- _ => rewrite H
             end; reflexivity.
  - intros e w' Hm. rewrite clean_main_run in Hm.
    destruct (fst (Clean.build_story w)) as [story | e0].
    + destruct (reportlab_encode w _ story) as [bytes | e1].
      * destruct (writable w Clean.filename); [discriminate|].
        injection Hm as _ <-. reflexivity.
      * injection Hm as _ <-. reflexivity.
    + injection Hm as _ <-. reflexivity.
  - intros e w' Hm. rewrite french_main_run in Hm.
    destruct (fst (French.generate_french_invoice w)) as [pdf | e0].
    + destruct (fpdf_encode w _) as [bytes | e1].
      * destruct (writable w french_file); [discriminate|].
        injection Hm as _ <-. reflexivity.
      * injection Hm as _ <-. reflexivity.
    + injection Hm as _ <-. reflexivity.
Qed.

Lemma C8_errors_propagate_witness :
  due_date (sample_world noon_jan15 noon_jan15)
  = Ok (mk_datetime 2024 2 14 12 0 0 0) /\
  exists story pdf,
    fst (Clean.build_story (sample_world noon_jan15 noon_jan15)) = Ok story /\
    fst (French.generate_french_invoice (sample_world noon_jan15 noon_jan15))
    = Ok pdf /\
    fst (Clean.main (sample_world noon_jan15 noon_jan15)) = Ok tt /\
    fst (French.main (sample_world noon_jan15 noon_jan15)) = Ok tt.
Proof.
  split; [reflexivity|].
  destruct (proj1 (proj2 (C8_errors_propagate
                            (sample_world noon_jan15 noon_jan15)))
                  (mk_datetime 2024 2 14 12 0 0 0) eq_refl)
    as (story & pdf & Hs & Hp & _ & _ & _ & _ & Hc & Hf).
  exists story, pdf. split; [exact Hs|]. split; [exact Hp|].
  split.
  - exact (proj2 (Hc pdf_magic eq_refl eq_refl)).
  - exact (Hf pdf_magic eq_refl eq_refl).
Defined.

(* ================================================================== *)
(** * Further properties of the two scripts *)

Section PageFurniture.

Lemma text_repage (pdf : Fpdf.FPDF) (p : Z) :
  Fpdf.text (Fpdf.mk_fpdf p (Fpdf.ops pdf)) = Fpdf.text pdf.
Proof. reflexivity. Qed.

Lemma footer_text (pdf : Fpdf.FPDF) :
  Fpdf.text (French.footer pdf)
  = (Fpdf.text pdf ++ [("Page " ++ str_of_Z (Fpdf.page pdf))%string])%list /\
  Fpdf.page (French.footer pdf) = Fpdf.page pdf.
Proof.
  unfold French.footer. rewrite text_cell, text_set_font, text_set_y.
  split; reflexivity.
Qed.

Lemma header_text (pdf : Fpdf.FPDF) :
  Fpdf.text (French.header pdf) = (Fpdf.text pdf ++ ["FACTURE"])%list /\
  Fpdf.page (French.header pdf) = Fpdf.page pdf.
Proof.
  unfold French.header. rewrite text_ln, text_cell, text_set_font.
  split; reflexivity.
Qed.

Lemma add_page_text (pdf : Fpdf.FPDF) :
  Fpdf.text (French.add_page pdf)
  = (Fpdf.text pdf
     ++ (if Z.ltb 0 (Fpdf.page pdf)
         then [("Page " ++ str_of_Z (Fpdf.page pdf))%string] else [])
     ++ ["FACTURE"])%list /\
  Fpdf.page (French.add_page pdf) = Fpdf.page pdf + 1.
Proof.
  unfold French.add_page.
  destruct (Z.ltb 0 (Fpdf.page pdf)).
  - destruct (footer_text pdf) as [Ht Hp].
    destruct (header_text (Fpdf.mk_fpdf (Fpdf.page (French.footer pdf) + 1)
                                        (Fpdf.ops (French.footer pdf))))
      as [Ht' Hp'].
    rewrite Ht', Hp', text_repage, Ht, <- app_assoc.
    cbn [Fpdf.page]. rewrite Hp. split; reflexivity.
  - destruct (header_text (Fpdf.mk_fpdf (Fpdf.page pdf + 1) (Fpdf.ops pdf)))
      as [Ht' Hp'].
    rewrite Ht', Hp', text_repage. split; reflexivity.
Qed.

Lemma blank_pages_text (n : nat) :
  Fpdf.page (blank_pages (S n)) = Z.of_nat (S n) /\
  Fpdf.text (blank_pages (S n))
  = (flat_map page_furniture (seq 1 n) ++ ["FACTURE"])%list.
Proof.
  induction n as [|n [IHp IHt]].
  - split; reflexivity.
  - change (blank_pages (S (S n)))
      with (French.add_page (blank_pages (S n))).
    destruct (add_page_text (blank_pages (S n))) as [Ht Hp].
    rewrite Ht, Hp, IHp, IHt.
    replace (Z.ltb 0 (Z.of_nat (S n))) with true
      by (symmetry; apply Z.ltb_lt; lia).
    split; [lia|].
    rewrite seq_S, flat_map_app. cbn [flat_map page_furniture plus].
    rewrite <- !app_assoc. reflexivity.
Qed.

End PageFurniture.

(** X1. Page furniture of [FrenchInvoicePDF].  [add_page] closes the
    page in progress with its footer, then draws the title of the new
    page and counts it.  Hence a document of [n + 1] pages, once
    closed, carries on each page [k] the title "FACTURE" and the footer
    "Page k", with [k] running from 1 to [n + 1]; closing a document
    that has no page gives it one. *)
Theorem X1_page_furniture (n : nat) :
  (forall pdf,
      Fpdf.text (French.add_page pdf)
      = (Fpdf.text pdf
         ++ (if Z.ltb 0 (Fpdf.page pdf)
             then [("Page " ++ str_of_Z (Fpdf.page pdf))%string] else [])
         ++ ["FACTURE"])%list /\
      Fpdf.page (French.add_page pdf) = Fpdf.page pdf + 1) /\
  Fpdf.page_no (blank_pages (S n)) = Z.of_nat (S n) /\
  Fpdf.text (French.close (blank_pages (S n)))
  = flat_map page_furniture (seq 1 (S n)) /\
  Fpdf.text (French.close Fpdf.new) = page_furniture 1.
Proof.
  split; [exact add_page_text|].
  destruct (blank_pages_text n) as [Hp Ht].
  split; [exact Hp|]. split; [|reflexivity].
  rewrite close_text by (rewrite Hp; lia).
  rewrite Ht, Hp, seq_S, flat_map_app. cbn [flat_map page_furniture plus].
  rewrite <- !app_assoc. reflexivity.
Qed.

Section WorkingDirectory.

Lemma lookup_store_other (p q : string) (content : list Byte.byte)
      (fs : list (string * list Byte.byte)) :
  String.eqb p q = false ->
  lookup_file q (store_file p content fs) = lookup_file q fs.
Proof.
  intros Hpq. induction fs as [|[p0 c0] fs IH]; cbn.
  - rewrite Hpq. reflexivity.
  - destruct (String.eqb p0 p) eqn:E0; cbn.
    + apply String.eqb_eq in E0. subst p0. rewrite Hpq. reflexivity.
    + destruct (String.eqb p0 q); [reflexivity | exact IH].
Qed.

Lemma store_length_present (p : string) (content old : list Byte.byte)
      (fs : list (string * list Byte.byte)) :
  lookup_file p fs = Some old ->
  List.length (store_file p content fs) = List.length fs.
Proof.
  induction fs as [|[p0 c0] fs IH]; cbn; [discriminate|].
  destruct (String.eqb p0 p); cbn; [reflexivity|].
  intros H. rewrite IH by exact H. reflexivity.
Qed.

End WorkingDirectory.

(** Whatever its outcome, a run leaves every path but its own output
    as it was. *)
Lemma files_frame (w : world) (p : string) :
  (String.eqb Clean.filename p = false ->
   lookup_file p (files (snd (Clean.main w))) = lookup_file p (files w)) /\
  (String.eqb french_file p = false ->
   lookup_file p (files (snd (French.main w))) = lookup_file p (files w)).
Proof.
  rewrite clean_main_run, french_main_run.
  destruct (fst (Clean.build_story w)) as [story | e1];
    [destruct (reportlab_encode w _ story) as [b1 | e1];
     [destruct (writable w Clean.filename)|]|];
    (destruct (fst (French.generate_french_invoice w)) as [pdf | e2];
     [destruct (fpdf_encode w (French.close pdf)) as [b2 | e2];
      [destruct (writable w french_file)|]|]);
    cbn [fst snd files printed stored tick now];
    repeat split; intros;
      try reflexivity;
      try (apply lookup_store_other; assumption).
Qed.



Section SuccessfulRun.

(** What a successful run leaves: the file, the output, and the rest of
    the world as it was, two readings consumed. *)
Lemma successful_run_frame (w w' : world) :
  (Clean.main w = (Ok tt, w') ->
   exists bytes,
     lookup_file Clean.filename (files w') = Some bytes /\
     stdout w'
     = stdout w
       ++ unlines (clean_banner
                   :: report Clean.filename (Z.of_nat (List.length bytes))
                   ++ clean_confirmation) /\
     (clock w' = clock w /\ ticks w' = (2 + ticks w)%nat /\
      reportlab_encode w' = reportlab_encode w /\
      fpdf_encode w' = fpdf_encode w /\ writable w' = writable w)) /\
  (French.main w = (Ok tt, w') ->
   exists bytes,
     lookup_file french_file (files w') = Some bytes /\
     stdout w'
     = stdout w
       ++ unlines (french_banner
                   :: report french_file (Z.of_nat (List.length bytes))) /\
     (clock w' = clock w /\ ticks w' = (2 + ticks w)%nat /\
      reportlab_encode w' = reportlab_encode w /\
      fpdf_encode w' = fpdf_encode w /\ writable w' = writable w)).
Proof.
  split; intros Hm.
  - rewrite clean_main_run in Hm.
    destruct (fst (Clean.build_story w)) as [story | e]; [|discriminate].
    destruct (reportlab_encode w _ story) as [bytes | e]; [|discriminate].
    destruct (writable w Clean.filename); [|discriminate].
    injection Hm as <-. exists bytes.
    split; [cbn [files printed stored]; apply lookup_store|].
    repeat split; reflexivity.
  - rewrite french_main_run in Hm.
    destruct (fst (French.generate_french_invoice w)) as [pdf | e];
      [|discriminate].
    destruct (fpdf_encode w (French.close pdf)) as [bytes | e]; [|discriminate].
    destruct (writable w french_file); [|discriminate].
    injection Hm as <-. exists bytes.
    split; [cbn [files printed stored]; apply lookup_store|].
    repeat split; reflexivity.
Qed.

End SuccessfulRun.

(** X5. Running a script twice overwrites.  When two runs in a row both
    return, the second took the third and fourth readings of the clock,
    the output file holds what the encoder gave for the second document,
    the directory has no more entries than after the first run, and the
    output of the first run is still there, followed by that of the
    second. *)
Theorem X5_second_run_overwrites (w w1 w2 : world) :
  (Clean.main w = (Ok tt, w1) ->
   Clean.main w1 = (Ok tt, w2) ->
   exists story2 bytes1 bytes2,
     reading1 w1 = clock w (2 + ticks w)%nat /\
     reading2 w1 = clock w (3 + ticks w)%nat /\
     fst (Clean.build_story w1) = Ok story2 /\
     reportlab_encode w (ReportLab.mk_doc Clean.filename "A4") story2
     = Ok bytes2 /\
     lookup_file Clean.filename (files w1) = Some bytes1 /\
     lookup_file Clean.filename (files w2) = Some bytes2 /\
     List.length (files w2) = List.length (files w1) /\
     stdout w2
     = stdout w
       ++ unlines (clean_banner
                   :: report Clean.filename (Z.of_nat (List.length bytes1))
                   ++ clean_confirmation)
       ++ unlines (clean_banner
                   :: report Clean.filename (Z.of_nat (List.length bytes2))
                   ++ clean_confirmation)) /\
  (French.main w = (Ok tt, w1) ->
   French.main w1 = (Ok tt, w2) ->
   exists pdf2 bytes1 bytes2,
     reading1 w1 = clock w (2 + ticks w)%nat /\
     reading2 w1 = clock w (3 + ticks w)%nat /\
     fst (French.generate_french_invoice w1) = Ok pdf2 /\
     fpdf_encode w (French.close pdf2) = Ok bytes2 /\
     lookup_file french_file (files w1) = Some bytes1 /\
     lookup_file french_file (files w2) = Some bytes2 /\
     List.length (files w2) = List.length (files w1) /\
     stdout w2
     = stdout w
       ++ unlines (french_banner
                   :: report french_file (Z.of_nat (List.length bytes1)))
       ++ unlines (french_banner
                   :: report french_file (Z.of_nat (List.length bytes2)))).
Proof.
  split; intros H1 H2.
  - destruct (proj1 (successful_run_frame w w1) H1)
      as (bytes1 & Hf1 & Hout1 & Hw1).
    destruct (proj1 (successful_run_frame w1 w2) H2)
      as (bytes2 & Hf2 & Hout2 & Hw2).
    rewrite clean_main_run in H2.
    destruct (fst (Clean.build_story w1)) as [story2 | e]; [|discriminate].
    destruct Hw1 as (Hck & Htk & Hre & Hfe & Hwr).
    destruct (reportlab_encode w1 _ story2) as [b2 | e] eqn:Eb; [|discriminate].
    destruct (writable w1 Clean.filename); [|discriminate].
    injection H2 as H2. subst w2.
    cbn [files printed stored] in Hf2.
    rewrite lookup_store in Hf2. injection Hf2 as <-.
    exists story2, bytes1, b2.
    unfold reading1, reading2. rewrite Hck, Htk.
    split; [reflexivity|]. split; [reflexivity|]. split; [reflexivity|].
    split; [rewrite <- Hre; exact Eb|]. split; [exact Hf1|].
    split; [cbn [files printed stored]; apply lookup_store|].
    split.
    + cbn [files printed stored tick now snd].
      apply (store_length_present _ _ bytes1). exact Hf1.
    + rewrite Hout2, Hout1. apply string_app_assoc.
  - destruct (proj2 (successful_run_frame w w1) H1)
      as (bytes1 & Hf1 & Hout1 & Hw1).
    destruct (proj2 (successful_run_frame w1 w2) H2)
      as (bytes2 & Hf2 & Hout2 & Hw2).
    rewrite french_main_run in H2.
    destruct (fst (French.generate_french_invoice w1)) as [pdf2 | e];
      [|discriminate].
    destruct Hw1 as (Hck & Htk & Hre & Hfe & Hwr).
    destruct (fpdf_encode w1 (French.close pdf2)) as [b2 | e] eqn:Eb;
      [|discriminate].
    destruct (writable w1 french_file); [|discriminate].
    injection H2 as H2. subst w2.
    cbn [files printed stored] in Hf2.
    rewrite lookup_store in Hf2. injection Hf2 as <-.
    exists pdf2, bytes1, b2.
    unfold reading1, reading2. rewrite Hck, Htk.
    split; [reflexivity|]. split; [reflexivity|]. split; [reflexivity|].
    split; [rewrite <- Hfe; exact Eb|]. split; [exact Hf1|].
    split; [cbn [files printed stored]; apply lookup_store|].
    split.
    + cbn [files printed stored tick now snd].
      apply (store_length_present _ _ bytes1). exact Hf1.
    + rewrite Hout2, Hout1. apply string_app_assoc.
Qed.

Lemma X5_second_run_overwrites_witness :
  exists w1 w2 bytes2,
    Clean.main (sample_world noon_jan15 noon_jan15) = (Ok tt, w1) /\
    Clean.main w1 = (Ok tt, w2) /\
    lookup_file Clean.filename (files w2) = Some bytes2 /\
    List.length (files w2) = List.length (files w1).
Proof.
  pose (w := sample_world noon_jan15 noon_jan15).
  exists (snd (Clean.main w)), (snd (Clean.main (snd (Clean.main w)))).
  assert (H1 : Clean.main w = (Ok tt, snd (Clean.main w)))
    by (vm_compute; reflexivity).
  assert (H2 : Clean.main (snd (Clean.main w))
               = (Ok tt, snd (Clean.main (snd (Clean.main w)))))
    by (vm_compute; reflexivity).
  destruct (proj1 (X5_second_run_overwrites _ _ _) H1 H2)
    as (story2 & bytes1 & bytes2 & _ & _ & _ & _ & _ & Hf & Hl & _).
  exists bytes2. split; [exact H1|]. split; [exact H2|].
  split; [exact Hf | exact Hl].
Defined.

(** X6. The two scripts do not disturb each other.  Their output files
    have different names; run one after the other in the same directory,
    in either order, the second leaves the artifact of the first as it
    was and adds its own. *)
Theorem X6_scripts_coexist (w w1 w2 : world) :
  (Clean.main w = (Ok tt, w1) ->
   French.main w1 = (Ok tt, w2) ->
   exists bytes_clean bytes_french,
     lookup_file Clean.filename (files w1) = Some bytes_clean /\
     lookup_file Clean.filename (files w2) = Some bytes_clean /\
     lookup_file french_file (files w2) = Some bytes_french) /\
  (French.main w = (Ok tt, w1) ->
   Clean.main w1 = (Ok tt, w2) ->
   exists bytes_french bytes_clean,
     lookup_file french_file (files w1) = Some bytes_french /\
     lookup_file french_file (files w2) = Some bytes_french /\
     lookup_file Clean.filename (files w2) = Some bytes_clean).
Proof.
  split; intros H1 H2.
  - destruct (proj1 (successful_run_frame w w1) H1) as (b1 & Hf1 & _).
    destruct (proj2 (successful_run_frame w1 w2) H2) as (b2 & Hf2 & _).
    exists b1, b2. split; [exact Hf1|]. split; [|exact Hf2].
    pose proof (proj2 (files_frame w1 Clean.filename) eq_refl) as Hk.
    rewrite H2 in Hk. cbn [snd] in Hk. rewrite Hk. exact Hf1.
  - destruct (proj2 (successful_run_frame w w1) H1) as (b1 & Hf1 & _).
    destruct (proj1 (successful_run_frame w1 w2) H2) as (b2 & Hf2 & _).
    exists b1, b2. split; [exact Hf1|]. split; [|exact Hf2].
    pose proof (proj1 (files_frame w1 french_file) eq_refl) as Hk.
    rewrite H2 in Hk. cbn [snd] in Hk. rewrite Hk. exact Hf1.
Qed.

Lemma X6_scripts_coexist_witness :
  exists w1 w2 bytes_clean bytes_french,
    Clean.main (sample_world noon_jan15 noon_jan15) = (Ok tt, w1) /\
    French.main w1 = (Ok tt, w2) /\
    lookup_file Clean.filename (files w2) = Some bytes_clean /\
    lookup_file french_file (files w2) = Some bytes_french.
Proof.
  pose (w := sample_world noon_jan15 noon_jan15).
  exists (snd (Clean.main w)), (snd (French.main (snd (Clean.main w)))).
  assert (H1 : Clean.main w = (Ok tt, snd (Clean.main w)))
    by (vm_compute; reflexivity).
  assert (H2 : French.main (snd (Clean.main w))
               = (Ok tt, snd (French.main (snd (Clean.main w)))))
    by (vm_compute; reflexivity).
  destruct (proj1 (X6_scripts_coexist _ _ _) H1 H2)
    as (b1 & b2 & _ & Hc & Hf).
  exists b1, b2. split; [exact H1|]. split; [exact H2|].
  split; [exact Hc | exact Hf].
Defined.

Section DateText.

Lemma forallb_range (f : Z -> bool) (n : nat) (v : Z) :
  forallb f (map Z.of_nat (seq 0 n)) = true ->
  0 <= v < Z.of_nat n -> f v = true.
Proof.
  intros Hall Hv. rewrite forallb_forall in Hall. apply Hall.
  apply in_map_iff. exists (Z.to_nat v). split; [lia|].
  apply in_seq. lia.
Qed.

Lemma two_digits_all (v : Z) : 0 <= v < 100 -> two_digits_ok v = true.
Proof.
  apply (forallb_range two_digits_ok (Z.to_nat 100)). vm_compute. reflexivity.
Qed.

Lemma four_digits_all (v : Z) : 0 <= v < 10000 -> four_digits_ok v = true.
Proof.
  apply (forallb_range four_digits_ok (Z.to_nat 10000)). vm_compute. reflexivity.
Qed.

Lemma days_in_month_le_31 (y m : Z) : 1 <= m <= 12 -> days_in_month y m <= 31.
Proof.
  intros Hm. unfold days_in_month.
  assert (Hc : m = 1 \/ m = 2 \/ m = 3 \/ m = 4 \/ m = 5 \/ m = 6 \/ m = 7 \/
               m = 8 \/ m = 9 \/ m = 10 \/ m = 11 \/ m = 12) by lia.
  destruct (is_leap y);
    repeat (destruct Hc as [Hc | Hc]); subst m; vm_compute; discriminate.
Qed.

Lemma valid_date_bounds (dt : datetime) :
  valid dt = true ->
  1 <= day dt <= 31 /\ 1 <= month dt <= 12 /\ 1 <= year dt <= 9999.
Proof.
  unfold valid, MINYEAR, MAXYEAR. intros H.
  repeat (apply andb_prop in H; destruct H as [H ?]).
  pose proof (days_in_month_le_31 (year dt) (month dt) ltac:(lia)).
  lia.
Qed.

(** The date as rendered reads back as the date. *)
Lemma parse_strftime (dt : datetime) :
  valid dt = true ->
  parse_dmY (strftime_dmY dt) = Some (day dt, month dt, year dt) /\
  String.length (strftime_dmY dt) = 10%nat.
Proof.
  intros Hv. destruct (valid_date_bounds dt Hv) as (Hd & Hm & Hy).
  pose proof (two_digits_all (day dt) ltac:(lia)) as Cd.
  pose proof (two_digits_all (month dt) ltac:(lia)) as Cm.
  pose proof (four_digits_all (year dt) ltac:(lia)) as Cy.
  unfold strftime_dmY, two_digits_ok, four_digits_ok in *.
  destruct (zfill 2 (str_of_Z (day dt))) as [|d1 [|d2 [|]]]; try discriminate.
  destruct (zfill 2 (str_of_Z (month dt))) as [|m1 [|m2 [|]]]; try discriminate.
  destruct (zfill 4 (str_of_Z (year dt))) as [|y1 [|y2 [|y3 [|y4 [|]]]]];
    try discriminate.
  cbn [append parse_dmY String.length].
  destruct (digit_of d1), (digit_of d2), (digit_of m1), (digit_of m2),
           (digit_of y1), (digit_of y2), (digit_of y3), (digit_of y4);
    try discriminate.
  apply Z.eqb_eq in Cd, Cm, Cy. rewrite Cd, Cm, Cy.
  split; reflexivity.
Qed.

End DateText.

Section Calendar.

Lemma days_before_year_succ (y : Z) :
  days_before_year (y + 1) = days_before_year y + 365 + b2z (is_leap y).
Proof.
  unfold days_before_year, is_leap, b2z. cbv zeta.
  replace (y + 1 - 1) with y by lia.
  repeat match goal with
         | |- context [Z.eqb ?a ?b] => destruct (Z.eqb_spec a b)
         end;
    cbn [andb orb negb]; Z.div_mod_to_equations; lia.
Qed.

Lemma days_before_year_mono (y y' : Z) :
  y <= y' -> days_before_year y <= days_before_year y'.
Proof.
  intros H. unfold days_before_year. cbv zeta.
  Z.div_mod_to_equations. lia.
Qed.

Lemma month_cases (m : Z) :
  1 <= m <= 12 ->
  m = 1 \/ m = 2 \/ m = 3 \/ m = 4 \/ m = 5 \/ m = 6 \/ m = 7 \/
  m = 8 \/ m = 9 \/ m = 10 \/ m = 11 \/ m = 12.
Proof. lia. Qed.

(** The day of the year of a valid date lies within the year. *)
Lemma day_of_year_bounds (y m d : Z) :
  1 <= m <= 12 -> 1 <= d <= days_in_month y m ->
  1 <= days_before_month y m + d <= 365 + b2z (is_leap y).
Proof.
  intros Hm. unfold days_in_month, days_before_month.
  destruct (month_cases m Hm) as
    [-> | [-> | [-> | [-> | [-> | [-> | [-> | [-> | [-> | [-> | [-> | ->]]]]]]]]]]];
    destruct (is_leap y); eval_tables; cbv iota; cbn [b2z]; lia.
Qed.

(** Within a year, a later month starts after every day of an earlier
    month. *)
Lemma month_order (y m m' d : Z) :
  1 <= m -> m < m' -> m' <= 12 -> d <= days_in_month y m ->
  days_before_month y m + d <= days_before_month y m'.
Proof.
  intros H1 Hlt H12. unfold days_in_month, days_before_month.
  assert (Hm : 1 <= m <= 12) by lia.
  assert (Hm' : 1 <= m' <= 12) by lia.
  destruct (month_cases m Hm) as
    [-> | [-> | [-> | [-> | [-> | [-> | [-> | [-> | [-> | [-> | [-> | ->]]]]]]]]]]];
    destruct (month_cases m' Hm') as
    [-> | [-> | [-> | [-> | [-> | [-> | [-> | [-> | [-> | [-> | [-> | ->]]]]]]]]]]];
    try lia;
    destruct (is_leap y); eval_tables; cbv iota; cbn [b2z]; lia.
Qed.

(** Two valid dates with the same ordinal are the same date. *)
Lemma toordinal_inj (a b : datetime) :
  valid a = true -> valid b = true ->
  toordinal a = toordinal b -> same_day a b = true.
Proof.
  unfold valid, MINYEAR, MAXYEAR. intros Ha Hb.
  repeat (apply andb_prop in Ha; destruct Ha as [Ha ?]).
  repeat (apply andb_prop in Hb; destruct Hb as [Hb ?]).
  unfold toordinal, ymd2ord, same_day. intros E.
  pose proof (day_of_year_bounds (year a) (month a) (day a)
                                 ltac:(lia) ltac:(lia)) as Ba.
  pose proof (day_of_year_bounds (year b) (month b) (day b)
                                 ltac:(lia) ltac:(lia)) as Bb.
  pose proof (days_before_year_succ (year a)) as Sa.
  pose proof (days_before_year_succ (year b)) as Sb.
  assert (Ey : year a = year b).
  { destruct (Z.lt_trichotomy (year a) (year b)) as [Hlt | [He | Hgt]];
      [exfalso | exact He | exfalso].
    - pose proof (days_before_year_mono (year a + 1) (year b) ltac:(lia)). lia.
    - pose proof (days_before_year_mono (year b + 1) (year a) ltac:(lia)). lia. }
  rewrite Ey in *.
  assert (Em : month a = month b).
  { destruct (Z.lt_trichotomy (month a) (month b)) as [Hlt | [He | Hgt]];
      [exfalso | exact He | exfalso].
    - pose proof (month_order (year b) (month a) (month b) (day a)
                              ltac:(lia) Hlt ltac:(lia) ltac:(lia)). lia.
    - pose proof (month_order (year b) (month b) (month a) (day b)
                              ltac:(lia) Hgt ltac:(lia) ltac:(lia)). lia. }
  rewrite Em in *.
  assert (Ed : day a = day b) by lia.
  rewrite Ed, !Z.eqb_refl. reflexivity.
Qed.

(** Of two valid dates, the later is not in an earlier year. *)
Lemma year_mono (a b : datetime) :
  valid a = true -> valid b = true ->
  toordinal a <= toordinal b -> year a <= year b.
Proof.
  unfold valid, MINYEAR, MAXYEAR. intros Ha Hb.
  repeat (apply andb_prop in Ha; destruct Ha as [Ha ?]).
  repeat (apply andb_prop in Hb; destruct Hb as [Hb ?]).
  unfold toordinal, ymd2ord. intros E.
  pose proof (day_of_year_bounds (year a) (month a) (day a)
                                 ltac:(lia) ltac:(lia)) as Ba.
  pose proof (day_of_year_bounds (year b) (month b) (day b)
                                 ltac:(lia) ltac:(lia)) as Bb.
  pose proof (days_before_year_succ (year b)) as Sb.
  destruct (Z_le_gt_dec (year a) (year b)) as [Hle | Hgt]; [exact Hle|].
  exfalso.
  pose proof (days_before_year_mono (year b + 1) (year a) ltac:(lia)). lia.
Qed.

End Calendar.

(** X7. The dates of the document read back.  With valid readings in
    years of four digits, the second not after 9999-12-01, both
    generators draw, after "Date: " and "Date d'échéance: ", ten
    characters dd/mm/yyyy that read back as the day, month and year of
    the first reading and of the date thirty days after the second,
    itself in a year of four digits; two such readings rendered alike
    fall on the same day. *)
Theorem X7_dates_read_back (w : world) :
  valid (reading1 w) = true ->
  valid (reading2 w) = true ->
  1000 <= year (reading1 w) ->
  1000 <= year (reading2 w) ->
  toordinal (reading2 w) + 30 <= MAXORDINAL ->
  (exists due story pdf issued_text due_text,
      Clean.build_story w = (Ok story, tick (tick w)) /\
      clean_renders w story /\
      French.generate_french_invoice w = (Ok pdf, tick (tick w)) /\
      In ("Date: " ++ issued_text) (ReportLab.story_text story) /\
      In ("Date d'échéance: " ++ due_text) (ReportLab.story_text story) /\
      In ("Date: " ++ issued_text) (Fpdf.text pdf) /\
      In ("Date d'échéance: " ++ due_text) (Fpdf.text pdf) /\
      String.length issued_text = 10%nat /\
      String.length due_text = 10%nat /\
      parse_dmY issued_text
      = Some (day (reading1 w), month (reading1 w), year (reading1 w)) /\
      parse_dmY due_text = Some (day due, month due, year due) /\
      1000 <= year due /\
      ymd2ord (year due) (month due) (day due) = toordinal (reading2 w) + 30) /\
  (forall a b,
      valid a = true -> valid b = true ->
      1000 <= year a -> 1000 <= year b ->
      strftime_dmY a = strftime_dmY b -> same_day a b = true).
Proof.
  intros Hv1 Hv2 Hy1 Hy2 Hr. split.
  - pose proof (toordinal_pos _ Hv2) as Hpos.
    destruct (add_days_spec (reading2 w) 30 Hv2 ltac:(lia))
      as (due & Hadd & Hord & Hvd & _).
    destruct (clean_build_story_ok w due Hadd) as (story & Hs & Ht & _).
    destruct (french_generate_ok w due Hadd) as (pdf & Hp & Hpt & _).
    destruct (parse_strftime _ Hv1) as [P1 L1].
    destruct (parse_strftime _ Hvd) as [P2 L2].
    pose proof (year_mono (reading2 w) due Hv2 Hvd ltac:(lia)) as Hyd.
    exists due, story, pdf, (strftime_dmY (reading1 w)), (strftime_dmY due).
    rewrite Ht, Hpt.
    split; [exact Hs|]. split; [exact (clean_renders_built w story Hs)|].
    split; [exact Hp|].
    split; [apply in_clean_text_dates|]. split; [apply in_clean_text_dates|].
    split; [apply in_french_text_dates|]. split; [apply in_french_text_dates|].
    split; [exact L1|]. split; [exact L2|]. split; [exact P1|].
    split; [exact P2|]. split; [lia | exact Hord].
  - intros a b Ha Hb _ _ E.
    destruct (parse_strftime a Ha) as [Pa _].
    destruct (parse_strftime b Hb) as [Pb _].
    rewrite E, Pb in Pa. injection Pa as Ed Em Ey.
    unfold same_day. rewrite Ed, Em, Ey, !Z.eqb_refl. reflexivity.
Qed.

Lemma X7_dates_read_back_witness :
  valid noon_jan15 = true /\
  1000 <= year noon_jan15 /\
  toordinal noon_jan15 + 30 <= MAXORDINAL /\
  exists due due_text,
    parse_dmY due_text = Some (day due, month due, year due) /\
    ymd2ord (year due) (month due) (day due) = toordinal noon_jan15 + 30.
Proof.
  split; [reflexivity|]. split; [vm_compute; discriminate|].
  split; [vm_compute; discriminate|].
  destruct (proj1 (X7_dates_read_back
                     (sample_world noon_jan15 noon_jan15)
                     eq_refl eq_refl
                     ltac:(vm_compute; discriminate)
                     ltac:(vm_compute; discriminate)
                     ltac:(vm_compute; discriminate)))
    as (due & story & pdf & t1 & t2 & _ & _ & _ & _ & _ & _ & _ & _ & _ & _
        & Hp & _ & Ho).
  exists due, t2. split; [exact Hp | exact Ho].
Defined.

(** X8. How far the due date drawn is from the issue date drawn.  With
    valid readings in years of four digits, the second not after
    9999-12-01, not earlier than the first and less than a day later,
    both generators draw an issue date and a due date that read back as
    two calendar dates thirty or thirty-one days apart: thirty when
    both readings fall on the same day, thirty-one when midnight passed
    between them. *)
Theorem X8_due_thirty_or_thirty_one (w : world) :
  valid (reading1 w) = true ->
  valid (reading2 w) = true ->
  1000 <= year (reading1 w) ->
  toordinal (reading2 w) + 30 <= MAXORDINAL ->
  timestamp (reading1 w) <= timestamp (reading2 w) ->
  timestamp (reading2 w) < timestamp (reading1 w) + 86400 * 1000000 ->
  exists story pdf issued_text due_text d1 m1 y1 d2 m2 y2,
    Clean.build_story w = (Ok story, tick (tick w)) /\
    clean_renders w story /\
    French.generate_french_invoice w = (Ok pdf, tick (tick w)) /\
    In ("Date: " ++ issued_text) (ReportLab.story_text story) /\
    In ("Date d'échéance: " ++ due_text) (ReportLab.story_text story) /\
    In ("Date: " ++ issued_text) (Fpdf.text pdf) /\
    In ("Date d'échéance: " ++ due_text) (Fpdf.text pdf) /\
    parse_dmY issued_text = Some (d1, m1, y1) /\
    parse_dmY due_text = Some (d2, m2, y2) /\
    1000 <= y1 /\ 1000 <= y2 /\
    (ymd2ord y2 m2 d2 = ymd2ord y1 m1 d1 + 30 \/
     ymd2ord y2 m2 d2 = ymd2ord y1 m1 d1 + 31) /\
    (same_day (reading1 w) (reading2 w) = true ->
     ymd2ord y2 m2 d2 = ymd2ord y1 m1 d1 + 30) /\
    (same_day (reading1 w) (reading2 w) = false ->
     ymd2ord y2 m2 d2 = ymd2ord y1 m1 d1 + 31).
Proof.
  intros Hv1 Hv2 Hy1 Hr Hle Hlt.
  pose proof (toordinal_pos _ Hv2) as Hpos.
  destruct (add_days_spec (reading2 w) 30 Hv2 ltac:(lia))
    as (due & Hadd & Hord & Hvd & _).
  destruct (clean_build_story_ok w due Hadd) as (story & Hs & Ht & _).
  destruct (french_generate_ok w due Hadd) as (pdf & Hp & Hpt & _).
  destruct (parse_strftime _ Hv1) as [P1 _].
  destruct (parse_strftime _ Hvd) as [P2 _].
  pose proof (toordinal_inj _ _ Hv1 Hv2) as Hinj.
  pose proof (year_mono (reading1 w) (reading2 w) Hv1 Hv2) as Hm12.
  pose proof (year_mono (reading2 w) due Hv2 Hvd ltac:(lia)) as Hm2d.
  assert (Hd : toordinal (reading2 w) = toordinal (reading1 w) \/
               toordinal (reading2 w) = toordinal (reading1 w) + 1).
  { unfold timestamp in Hle, Hlt.
    unfold valid in Hv1, Hv2.
    repeat (apply andb_prop in Hv1; destruct Hv1 as [Hv1 ?]).
    repeat (apply andb_prop in Hv2; destruct Hv2 as [Hv2 ?]).
    lia. }
  exists story, pdf, (strftime_dmY (reading1 w)), (strftime_dmY due),
         (day (reading1 w)), (month (reading1 w)), (year (reading1 w)),
         (day due), (month due), (year due).
  rewrite Ht, Hpt.
  split; [exact Hs|]. split; [exact (clean_renders_built w story Hs)|].
  split; [exact Hp|].
  split; [apply in_clean_text_dates|]. split; [apply in_clean_text_dates|].
  split; [apply in_french_text_dates|]. split; [apply in_french_text_dates|].
  split; [exact P1|]. split; [exact P2|].
  split; [exact Hy1|]. split; [lia|].
  change (ymd2ord (year due) (month due) (day due)) with (toordinal due).
  change (ymd2ord (year (reading1 w)) (month (reading1 w)) (day (reading1 w)))
    with (toordinal (reading1 w)).
  split; [lia|]. split.
  - intros Hsame. rewrite Hord, (same_day_toordinal _ _ Hsame). reflexivity.
  - intros Hdiff. destruct Hd as [Hd | Hd]; [|lia].
    rewrite (Hinj (eq_sym Hd)) in Hdiff. discriminate.
Qed.

Lemma X8_due_thirty_or_thirty_one_witness :
  valid before_midnight = true /\ valid after_midnight = true /\
  timestamp before_midnight <= timestamp after_midnight /\
  timestamp after_midnight < timestamp before_midnight + 86400 * 1000000 /\
  exists issued_text due_text d1 m1 y1 d2 m2 y2,
    parse_dmY issued_text = Some (d1, m1, y1) /\
    parse_dmY due_text = Some (d2, m2, y2) /\
    (ymd2ord y2 m2 d2 = ymd2ord y1 m1 d1 + 30 \/
     ymd2ord y2 m2 d2 = ymd2ord y1 m1 d1 + 31).
Proof.
  split; [reflexivity|]. split; [reflexivity|].
  split; [vm_compute; discriminate|]. split; [vm_compute; reflexivity|].
  destruct (X8_due_thirty_or_thirty_one
              (sample_world before_midnight after_midnight)
              eq_refl eq_refl
              ltac:(vm_compute; discriminate)
              ltac:(vm_compute; discriminate)
              ltac:(vm_compute; discriminate)
              ltac:(vm_compute; reflexivity))
    as (story & pdf & t1 & t2 & d1 & m1 & y1 & d2 & m2 & y2
        & _ & _ & _ & _ & _ & _ & _ & P1 & P2 & _ & _ & Ho & _).
  exists t1, t2, d1, m1, y1, d2, m2, y2.
  split; [exact P1|]. split; [exact P2 | exact Ho].
Defined.

Section AmountText.

Lemma read_digits_uint (d : Decimal.uint) (acc : Z) (rest : string) :
  read_digits acc (NilEmpty.string_of_uint d ++ rest)
  = read_digits (uint_value acc d) rest.
Proof.
  revert acc. induction d; intros acc; [reflexivity | ..];
    cbn [NilEmpty.string_of_uint append uint_value];
    rewrite <- IHd; reflexivity.
Qed.

Lemma uint_value_pos (d : Decimal.uint) (acc : positive) :
  uint_value (Zpos acc) d = Zpos (Pos.of_uint_acc d acc).
Proof.
  revert acc. induction d; intros acc; [reflexivity | ..];
    cbn [uint_value Pos.of_uint_acc]; rewrite <- IHd; f_equal; lia.
Qed.

Lemma uint_value_of_uint (d : Decimal.uint) :
  uint_value 0 d = Z.of_N (Pos.of_uint d).
Proof.
  induction d; [reflexivity | exact IHd | ..];
    cbn [uint_value Pos.of_uint Z.of_N]; rewrite <- uint_value_pos;
    reflexivity.
Qed.

Lemma read_str_of_N (n : N) (rest : string) :
  read_digits 0 (str_of_N n ++ rest) = read_digits (Z.of_N n) rest /\
  starts_with_digit (str_of_N n ++ rest) = true.
Proof.
  unfold str_of_N, NilZero.string_of_uint.
  pose proof (DecimalN.Unsigned.of_to n) as Hn. unfold N.of_uint in Hn.
  destruct (N.to_uint n) as [|d|d|d|d|d|d|d|d|d|d] eqn:E;
    (split; [|reflexivity]);
    try (rewrite read_digits_uint, uint_value_of_uint, Hn; reflexivity).
  cbn in Hn. subst n. reflexivity.
Qed.

Lemma read_digits_stop (acc : Z) (c : ascii) (rest : string) :
  digit_of c = None -> read_digits acc (String c rest) = (acc, String c rest).
Proof. intros H. cbn [read_digits]. rewrite H. reflexivity. Qed.

(** An amount of [c] hundredths, as printed, reads back as [c]. *)
Lemma cents_of_fixed2 (c : Z) :
  0 <= c -> cents_of_text (PyFloat.fixed2 c ++ " EUR") = Some c.
Proof.
  intros Hc. unfold PyFloat.fixed2.
  assert (Hq : 0 <= c / 100) by (apply Z.div_pos; lia).
  assert (Hr : 0 <= c mod 100 < 100) by (apply Z.mod_pos_bound; lia).
  pose proof (two_digits_all (c mod 100) Hr) as H2.
  unfold two_digits_ok in H2.
  destruct (zfill 2 (str_of_Z (c mod 100))) as [|a [|b [|]]]; try discriminate.
  destruct (digit_of a) as [x|] eqn:Ea; [|discriminate].
  destruct (digit_of b) as [y|] eqn:Eb; [|discriminate].
  apply Z.eqb_eq in H2.
  replace (str_of_Z (c / 100)) with (str_of_N (Z.to_N (c / 100)))
    by (destruct (c / 100); [reflexivity | reflexivity | lia]).
  rewrite !string_app_assoc. cbn [append].
  destruct (read_str_of_N (Z.to_N (c / 100))
                          (String "." (String a (String b " EUR"))))
    as [Hread Hstart].
  unfold cents_of_text. rewrite Hstart, Hread.
  rewrite read_digits_stop by reflexivity.
  rewrite Ea, Eb, Z2N.id by lia.
  f_equal. pose proof (Z.div_mod c 100 ltac:(lia)). lia.
Qed.

Lemma int_of_str (n : Z) : 0 <= n -> int_of_text (str_of_Z n) = Some n.
Proof.
  intros Hn.
  replace (str_of_Z n) with (str_of_N (Z.to_N n))
    by (destruct n; [reflexivity | reflexivity | lia]).
  destruct (read_str_of_N (Z.to_N n) "") as [Hread Hstart].
  rewrite string_app_nil_r in Hread, Hstart.
  unfold int_of_text. rewrite Hstart, Hread. cbn [read_digits].
  rewrite Z2N.id by lia. reflexivity.
Qed.

Lemma hundredths_exact (m : positive) (e c : Z) :
  PyFloat.exact_cents (S754_finite false m e) = Some c ->
  PyFloat.hundredths m e = c /\ 0 < c.
Proof.
  assert (Hpow : forall p, 0 < 2 ^ Zpos p)
    by (intros p; apply Z.pow_pos_nonneg; lia).
  unfold PyFloat.exact_cents, PyFloat.hundredths, PyFloat.round_half_even.
  destruct e as [|p|p]; unfold cond_Zopp; intros H.
  - assert (E : c = Zpos m * 100 * 2 ^ 0) by congruence. subst c.
    split; [reflexivity | rewrite Z.pow_0_r; lia].
  - assert (E : c = Zpos m * 100 * 2 ^ Zpos p) by congruence. subst c.
    split; [reflexivity|]. apply Z.mul_pos_pos; [lia | apply Hpow].
  - destruct (Z.eqb_spec ((Zpos m * 100) mod 2 ^ Zpos p) 0) as [E | E];
      [|discriminate].
    assert (Ec : c = Zpos m * 100 / 2 ^ Zpos p) by congruence. subst c.
    rewrite E.
    replace (Z.compare (2 * 0) (2 ^ Zpos p)) with Lt
      by (symmetry; apply Z.compare_lt_iff; pose proof (Hpow p); lia).
    split; [reflexivity|].
    pose proof (Z.div_mod (Zpos m * 100) (2 ^ Zpos p)
                          ltac:(pose proof (Hpow p); lia)) as Hdm.
    pose proof (Z.div_pos (Zpos m * 100) (2 ^ Zpos p) ltac:(lia) (Hpow p)).
    destruct (Z.eq_dec (Zpos m * 100 / 2 ^ Zpos p) 0) as [E0 | E0]; [|lia].
    rewrite E0, E in Hdm. lia.
Qed.

Lemma exact_cents_negative (m : positive) (e c : Z) :
  PyFloat.exact_cents (S754_finite true m e) = Some c -> c < 0.
Proof.
  intros H.
  assert (H' : PyFloat.exact_cents (S754_finite false m e) = Some (- c)).
  { unfold PyFloat.exact_cents in *.
    destruct e as [|p|p]; unfold cond_Zopp in *.
    - f_equal. assert (c = - (Zpos m * 100 * 2 ^ 0)) by congruence. lia.
    - f_equal. assert (c = - (Zpos m * 100 * 2 ^ Zpos p)) by congruence. lia.
    - destruct (Z.eqb ((Zpos m * 100) mod 2 ^ Zpos p) 0); [|discriminate].
      f_equal. assert (c = - (Zpos m * 100 / 2 ^ Zpos p)) by congruence. lia. }
  destruct (hundredths_exact m e (- c) H') as [_ Hpos]. lia.
Qed.

(** A float that is a whole, non-negative number of hundredths prints,
    with two decimals, as text that reads back as that number. *)
Lemma cents_of_fmt2 (x : PyFloat.t) (c : Z) :
  PyFloat.exact_cents x = Some c ->
  0 <= c ->
  x <> S754_zero true ->
  cents_of_text (fmt2 (Float x) ++ " EUR") = Some c.
Proof.
  intros Hx Hc Hnz. unfold fmt2, to_float, PyFloat.format_2f.
  destruct x as [[|] | s | | [|] m e]; try discriminate.
  - congruence.
  - assert (E : c = 0) by (cbn in Hx; congruence). subst c. reflexivity.
  - pose proof (exact_cents_negative m e c Hx). lia.
  - destruct (hundredths_exact m e c Hx) as [-> Hpos].
    cbn [PyFloat.sign_text append]. apply cents_of_fixed2. lia.
Qed.

End AmountText.

Section Rows.

Lemma service_row_text (pdf : Fpdf.FPDF) (t : num) (s : French.service) :
  Fpdf.text (fst (French.service_row (pdf, t) s))
  = (Fpdf.text pdf ++ row_text s)%list /\
  snd (French.service_row (pdf, t) s) = num_add t (Float (total_of s)).
Proof.
  destruct s as [[[desc qty] unit_price] total].
  cbn [French.service_row fst snd total_of].
  rewrite !text_cell, <- !app_assoc. split; reflexivity.
Qed.

Lemma row_text_reads_back (s : French.service) :
  readable s -> reads_back s (row_text s).
Proof.
  destruct s as [[[desc qty] unit_price] total].
  intros (Hq & (u & Hu & Hu0) & Hunz & (c & Hc & Hc0) & Hcnz).
  exists (str_of_Z qty), (fmt2 (Float unit_price) ++ " EUR")%string,
         (fmt2 (Float total) ++ " EUR")%string.
  split; [reflexivity|].
  split; [apply int_of_str; exact Hq|].
  rewrite Hu, Hc. split; apply cents_of_fmt2; assumption.
Qed.

Lemma rows_read_back (svcs : list French.service) :
  Forall readable svcs -> Forall2 reads_back svcs (map row_text svcs).
Proof.
  induction 1 as [|s svcs Hs _ IH]; cbn [map]; constructor;
    [apply row_text_reads_back; exact Hs | exact IH].
Qed.

End Rows.

(** X9. The rows the FPDF generator draws read back.  Run on any list
    of line items with non-negative quantities and with unit prices and
    totals that are whole, non-negative numbers of hundredths (negative
    zero apart), the generator returns a document that holds, between
    the header of the table and the totals, one row of four cells per
    line item, in order: the description, the quantity, and the unit
    price and the total printed with two decimals and " EUR", which
    read back as exactly those numbers.  One turn of the loop appends
    such a row to the document and adds the stored total to the running
    sum. *)
Theorem X9_row_reads_back
        (svcs : list French.service) (w : world) (due : datetime) :
  due_date w = Ok due ->
  Forall readable svcs ->
  (exists pdf rows,
      French.generate_with svcs w = (Ok pdf, tick (tick w)) /\
      Fpdf.text pdf
      = (text_head (strftime_dmY (reading1 w)) (strftime_dmY due)
         ++ List.concat rows ++ totals_block (sum_totals svcs)
         ++ text_tail legal1_plain)%list /\
      Forall2 reads_back svcs rows) /\
  (forall pdf0 t s,
      readable s ->
      exists row,
        Fpdf.text (fst (French.service_row (pdf0, t) s))
        = (Fpdf.text pdf0 ++ row)%list /\
        reads_back s row /\
        snd (French.service_row (pdf0, t) s)
        = num_add t (Float (total_of s))).
Proof.
  intros Hdue Hall. unfold due_date in Hdue. split.
  - destruct (french_generate_with_ok svcs w due Hdue) as (pdf & Hp & Ht & _).
    exists pdf, (map row_text svcs).
    split; [exact Hp|]. split; [|apply rows_read_back; exact Hall].
    rewrite Ht, flat_map_concat_map. reflexivity.
  - intros pdf0 t s Hs. exists (row_text s).
    destruct (service_row_text pdf0 t s) as [H1 H2].
    split; [exact H1|]. split; [apply row_text_reads_back; exact Hs | exact H2].
Qed.

Lemma X9_row_reads_back_witness :
  due_date (sample_world noon_jan15 noon_jan15)
  = Ok (mk_datetime 2024 2 14 12 0 0 0) /\
  Forall readable French.services /\
  exists pdf rows,
    French.generate_with French.services (sample_world noon_jan15 noon_jan15)
    = (Ok pdf, tick (tick (sample_world noon_jan15 noon_jan15))) /\
    Forall2 reads_back French.services rows.
Proof.
  assert (Hall : Forall readable French.services).
  { unfold French.services.
    repeat (apply Forall_cons;
            [unfold readable;
             split; [lia|];
             split; [eexists; split; [vm_compute; reflexivity | lia]|];
             split; [vm_compute; discriminate|];
             split; [eexists; split; [vm_compute; reflexivity | lia]|];
             vm_compute; discriminate|]).
    apply Forall_nil. }
  split; [reflexivity|]. split; [exact Hall|].
  destruct (proj1 (X9_row_reads_back
                     French.services (sample_world noon_jan15 noon_jan15)
                     (mk_datetime 2024 2 14 12 0 0 0) eq_refl Hall))
    as (pdf & rows & Hp & _ & Hr).
  exists pdf, rows. split; [exact Hp | exact Hr].
Defined.

Section Latin1.

Lemma ascii_only_app (a b : string) :
  ascii_only (a ++ b) = ascii_only a && ascii_only b.
Proof.
  induction a as [|c a IH]; cbn [append ascii_only]; [reflexivity|].
  rewrite IH, andb_assoc. reflexivity.
Qed.

Lemma ascii_only_latin1 (s : string) :
  ascii_only s = true -> latin1_from false s = true.
Proof.
  induction s as [|c s IH]; cbn [ascii_only latin1_from]; [reflexivity|].
  intros H. apply andb_prop in H. destruct H as [Hc Hs].
  rewrite Hc. exact (IH Hs).
Qed.

Lemma latin1_from_app_ascii (pending : bool) (a b : string) :
  latin1_from pending a = true -> ascii_only b = true ->
  latin1_from pending (a ++ b) = true.
Proof.
  revert pending. induction a as [|c a IH]; intros pending Ha Hb.
  - cbn [latin1_from] in Ha. destruct pending; [discriminate|].
    apply ascii_only_latin1. exact Hb.
  - cbn [append latin1_from] in *.
    destruct pending.
    + apply andb_prop in Ha. destruct Ha as [Hc Ha].
      rewrite Hc. exact (IH false Ha Hb).
    + destruct (Nat.ltb (nat_of_ascii c) 128); [exact (IH false Ha Hb)|].
      apply andb_prop in Ha. destruct Ha as [Hc Ha].
      rewrite Hc. exact (IH true Ha Hb).
Qed.

Lemma latin1_app_ascii (a b : string) :
  latin1_text a = true -> ascii_only b = true -> latin1_text (a ++ b) = true.
Proof. apply latin1_from_app_ascii. Qed.

Lemma ascii_only_digits (d : Decimal.uint) :
  ascii_only (NilEmpty.string_of_uint d) = true.
Proof. induction d; cbn [NilEmpty.string_of_uint ascii_only]; auto. Qed.

Lemma ascii_only_str_of_N (n : N) : ascii_only (str_of_N n) = true.
Proof.
  unfold str_of_N, NilZero.string_of_uint.
  destruct (N.to_uint n); try apply ascii_only_digits. reflexivity.
Qed.

Lemma ascii_only_str_of_Z (z : Z) : ascii_only (str_of_Z z) = true.
Proof.
  destruct z; cbn [str_of_Z]; apply ascii_only_str_of_N.
Qed.

Lemma ascii_only_zfill (w : nat) (s : string) :
  ascii_only s = true -> ascii_only (zfill w s) = true.
Proof.
  unfold zfill. intros H.
  induction (w - String.length s)%nat; cbn [zfill_aux ascii_only]; auto.
Qed.

Lemma ascii_only_strftime (dt : datetime) :
  ascii_only (strftime_dmY dt) = true.
Proof.
  unfold strftime_dmY.
  rewrite !ascii_only_app, !ascii_only_zfill by apply ascii_only_str_of_Z.
  reflexivity.
Qed.

(** Whatever the number, its two-decimal text is plain ASCII. *)
Lemma ascii_only_fmt2 (x : num) : ascii_only (fmt2 x ++ " EUR") = true.
Proof.
  rewrite ascii_only_app, andb_true_r.
  unfold fmt2, PyFloat.format_2f, PyFloat.fixed2.
  destruct (to_float x) as [[|] | [|] | | [|] m e]; try reflexivity;
    rewrite !ascii_only_app, ascii_only_zfill, ascii_only_str_of_Z
      by apply ascii_only_str_of_Z;
    reflexivity.
Qed.

Lemma latin1_row (s : French.service) :
  latin1_text (desc_of s) = true ->
  Forall (fun run => latin1_text run = true) (row_text s).
Proof.
  destruct s as [[[desc qty] unit_price] total]. cbn [desc_of]. intros Hd.
  unfold row_text, row_ops. cbn [flat_map Fpdf.op_text app].
  repeat constructor.
  - exact Hd.
  - apply ascii_only_latin1, ascii_only_str_of_Z.
  - apply ascii_only_latin1, ascii_only_fmt2.
  - apply ascii_only_latin1, ascii_only_fmt2.
Qed.

Lemma latin1_rows (svcs : list French.service) :
  Forall (fun s => latin1_text (desc_of s) = true) svcs ->
  Forall (fun run => latin1_text run = true) (flat_map row_text svcs).
Proof.
  induction 1 as [|s svcs Hs _ IH]; [constructor|].
  cbn [flat_map]. apply Forall_app. split; [apply latin1_row; exact Hs | exact IH].
Qed.

End Latin1.

(** X10. The FPDF script never hands its library a character beyond
    U+00FF, the range of the core font it selects.  For every clock and
    every list of line items whose descriptions stay within that range,
    each text run of the closed document does: the fixed texts, the two
    dates, the quantities and every amount, whatever float it is. *)
Theorem X10_fpdf_text_is_latin1
        (svcs : list French.service) (w : world) (due : datetime) :
  due_date w = Ok due ->
  Forall (fun s => latin1_text (desc_of s) = true) svcs ->
  exists pdf,
    French.generate_with svcs w = (Ok pdf, tick (tick w)) /\
    Forall (fun run => latin1_text run = true)
           (Fpdf.text (French.close pdf)) /\
  Forall (fun s => latin1_text (desc_of s) = true) French.services /\
  latin1_text "Total: 10 €" = false.
Proof.
  intros Hdue Hdesc. unfold due_date in Hdue.
  destruct (french_generate_with_ok svcs w due Hdue)
    as (pdf & Hrun & Htext & Hclose).
  exists pdf. split; [exact Hrun|].
  split; [|split; [repeat constructor | reflexivity]].
  rewrite Hclose, Htext.
  pose proof (ascii_only_strftime (reading1 w)) as A1.
  pose proof (ascii_only_strftime due) as A2.
  set (d1 := strftime_dmY (reading1 w)) in *.
  set (d2 := strftime_dmY due) in *. clearbody d1 d2.
  repeat (apply Forall_app; split).
  - unfold text_head.
    repeat (apply Forall_cons;
            [first [ reflexivity
                   | apply latin1_app_ascii; [reflexivity | assumption] ]|]).
    apply Forall_nil.
  - apply latin1_rows. exact Hdesc.
  - unfold totals_block.
    repeat (apply Forall_cons;
            [first [ reflexivity
                   | apply ascii_only_latin1, ascii_only_fmt2 ]|]).
    apply Forall_nil.
  - repeat constructor.
  - repeat constructor.
Qed.

Lemma X10_fpdf_text_is_latin1_witness :
  due_date (sample_world noon_jan15 noon_jan15)
  = Ok (mk_datetime 2024 2 14 12 0 0 0) /\
  exists pdf,
    French.generate_with French.services (sample_world noon_jan15 noon_jan15)
    = (Ok pdf, tick (tick (sample_world noon_jan15 noon_jan15))) /\
    Forall (fun run => latin1_text run = true)
           (Fpdf.text (French.close pdf)).
Proof.
  split; [reflexivity|].
  destruct (X10_fpdf_text_is_latin1
              French.services (sample_world noon_jan15 noon_jan15)
              (mk_datetime 2024 2 14 12 0 0 0) eq_refl
              ltac:(repeat constructor))
    as (pdf & Hrun & Hall & _).
  exists pdf. split; [exact Hrun | exact Hall].
Defined.
